(** * perf_test_runner.py: the performance-test harness of TendrilTree

    A shallow embedding of [src/perf_test_runner.py] and the properties of
    its result extractor, revision lookup, CSV report writer and
    orchestration.

    Python strings are sequences of Unicode code points, dictionaries are
    insertion-ordered association lists, floats are binary64 values in the
    sense of [SpecFloat], exceptions are an explicit result type, and the
    file system and the standard output are threaded as state.  Opening
    a file fails the way the entry at its path makes it fail, and writing
    to a file fails on text its codec cannot encode. *)

From Stdlib Require Import List ZArith NArith Bool Lia String Ascii SpecFloat.
Import ListNotations.

Set Implicit Arguments.

(* ================================================================= *)
(** ** Strings *)

(** A character is a Unicode code point, a [str] is a Python [str]. *)
Definition char := N.
Definition str := list char.

(** The [str] of an ASCII literal of the source. *)
Definition txt (s : string) : str :=
  map N_of_ascii (list_ascii_of_string s).

Fixpoint str_eqb (a b : str) : bool :=
  match a, b with
  | [], [] => true
  | x :: a', y :: b' => N.eqb x y && str_eqb a' b'
  | _, _ => false
  end.

Definition str_in (k : str) (l : list str) : bool :=
  existsb (str_eqb k) l.

(** [between lo hi c]: the code point [c] lies in the closed range. *)
Definition between (lo hi c : N) : bool :=
  (N.leb lo c && N.leb c hi)%bool.

(** The surrogate code points, [U+D800] to [U+DFFF]. *)
Definition is_surrogate (c : char) : bool := between 55296 57343 c.

(** The text files of the script are opened with the codec of the
    locale and strict error handling.  Where the test tool of the script
    runs that codec is UTF-8, which encodes every character but a
    surrogate. *)
Definition encodable (s : str) : bool :=
  forallb (fun c => negb (is_surrogate c)) s.

(* ================================================================= *)
(** ** Exceptions *)

(** The [Exception] subclasses the script can meet.  Asynchronous
    [BaseException]s (keyboard interrupts, interpreter exit) are not part
    of the model. *)
Inductive exn : Type :=
| FileNotFoundError
| PermissionError
| IsADirectoryError
| NotADirectoryError
| CalledProcessError (returncode : Z)
| UnicodeDecodeError
| UnicodeEncodeError
| ValueError.

(** The outcome of evaluating an expression: a value or a raised
    exception. *)
Inductive result (A : Type) : Type :=
| Ok (a : A)
| Raise (e : exn).
Arguments Ok {A} a.
Arguments Raise {A} e.

(* ================================================================= *)
(** ** Insertion-ordered dictionaries *)

(** A Python [dict] keeps its keys in the order of their first insertion;
    assigning to a key that is present replaces the value in place. *)
Definition dict (V : Type) := list (str * V).

Fixpoint dict_get {V} (k : str) (d : dict V) : option V :=
  match d with
  | [] => None
  | (k', v) :: d' => if str_eqb k k' then Some v else dict_get k d'
  end.

(** [d[k] = v] *)
Fixpoint dict_set {V} (k : str) (v : V) (d : dict V) : dict V :=
  match d with
  | [] => [(k, v)]
  | (k', v') :: d' =>
      if str_eqb k k' then (k', v) :: d' else (k', v') :: dict_set k v d'
  end.

(** [list(d.keys())] *)
Definition dict_keys {V} (d : dict V) : list str := map fst d.

(** [d.update(other)]: assigns the items of [other] in their order. *)
Definition dict_update {V} (d other : dict V) : dict V :=
  fold_left (fun acc kv => dict_set (fst kv) (snd kv) acc) other d.

(* ================================================================= *)
(** ** The regular-expression engine *)

Module Re.

(** The fragment of [re] syntax the script's pattern is written in: a
    literal run of characters, a greedy [cls+], and a capturing group
    [(cls+)]. *)
Inductive atom : Type :=
| Lit (s : str)
| Plus (cls : char -> bool)
| Group (cls : char -> bool).

Definition pattern := list atom.

(** [strip_prefix l s]: what is left of [s] after the literal [l]. *)
Fixpoint strip_prefix (l s : str) : option str :=
  match l, s with
  | [], _ => Some s
  | c :: l', d :: s' => if N.eqb c d then strip_prefix l' s' else None
  | _ :: _, [] => None
  end.

(** The length of the longest prefix of [s] made of [cls] characters. *)
Fixpoint run (cls : char -> bool) (s : str) : nat :=
  match s with
  | c :: s' => if cls c then S (run cls s') else O
  | [] => O
  end.

(** A greedy quantifier tries the longest repetition first and gives
    characters back one at a time, down to a single one. *)
Fixpoint greedy {B} (k : nat -> option B) (n : nat) : option B :=
  match n with
  | O => None
  | S m => match k n with
           | Some r => Some r
           | None => greedy k m
           end
  end.

(** [match_here p s]: match [p] at the start of [s], by backtracking.
    The result is the captured groups, in order, and the unmatched rest
    of [s]. *)
Fixpoint match_here (p : pattern) (s : str) : option (list str * str) :=
  match p with
  | [] => Some ([], s)
  | Lit l :: p' =>
      match strip_prefix l s with
      | Some r => match_here p' r
      | None => None
      end
  | Plus cls :: p' =>
      greedy (fun n => match_here p' (skipn n s)) (run cls s)
  | Group cls :: p' =>
      greedy (fun n =>
                match match_here p' (skipn n s) with
                | Some (gs, r) => Some (firstn n s :: gs, r)
                | None => None
                end) (run cls s)
  end.

(** [scan p skip s]: the matches of [p] in [s], left to right and
    without overlap; [skip] counts the characters of [s] a previous
    match has consumed. *)
Fixpoint scan (p : pattern) (skip : nat) (s : str) {struct s}
  : list (list str) :=
  match s with
  | [] =>
      match skip, match_here p [] with
      | O, Some (gs, _) => [gs]
      | _, _ => []
      end
  | _ :: s' =>
      match skip with
      | S k => scan p k s'
      | O =>
          match match_here p s with
          | Some (gs, r) =>
              gs :: scan p (List.length s - List.length r - 1) s'
          | None => scan p O s'
          end
      end
  end.

(** [re.finditer(p, s)], each match given by its [groups()]. *)
Definition finditer (p : pattern) (s : str) : list (list str) :=
  scan p O s.

End Re.

(* ================================================================= *)
(** ** float() *)

Definition is_digit (c : char) : bool := between 48 57 c.

Definition is_dot (c : char) : bool := N.eqb c 46.

(** The value of a run of decimal digits. *)
Definition decimal (ds : str) : N :=
  fold_left (fun acc c => acc * 10 + (c - 48))%N ds 0%N.

(** The binary64 nearest to [m / 10^k], ties to even: Python converts a
    decimal literal with correct rounding. *)
Definition binary64_of_decimal (m : N) (k : nat) : spec_float :=
  match m with
  | N0 => S754_zero false
  | Npos p =>
      SFdiv 53 1024 (S754_finite false p 0)
                    (S754_finite false (Z.to_pos (10 ^ Z.of_nat k)) 0)
  end.

(** [float(s)] for the literals made of ASCII digits and dots: digits
    with at most one dot and at least one digit.  Any other string over
    these characters raises [ValueError].  (Signs, exponents, blanks,
    underscores and the special values of the full [float] grammar use
    characters the script's pattern never captures, and are rejected
    here.) *)
Definition py_float (s : str) : result spec_float :=
  let n := Re.run is_digit s in
  let ip := firstn n s in
  match skipn n s with
  | [] =>
      match ip with
      | [] => Raise ValueError
      | _ => Ok (binary64_of_decimal (decimal ip) 0)
      end
  | c :: r =>
      if is_dot c then
        let k := Re.run is_digit r in
        let fp := firstn k r in
        match skipn k r, ip ++ fp with
        | [], _ :: _ => Ok (binary64_of_decimal (decimal (ip ++ fp)) k)
        | _, _ => Raise ValueError
        end
      else Raise ValueError
  end.

(* ================================================================= *)
(** ** The result extractor *)

Section Extractor.

(** [str.isalnum] on the code points above ASCII, from the Unicode
    character database of the interpreter. *)
Variable unicode_alnum : char -> bool.

(** [\w] on a [str] pattern: alphanumeric characters and the
    underscore.  The surrogates are no characters of the database and
    are alphanumeric under no table. *)
Definition is_word (c : char) : bool :=
  between 48 57 c || between 65 90 c || between 97 122 c || N.eqb c 95
  || (N.leb 128 c && negb (is_surrogate c) && unicode_alnum c).

(** [[0-9.]] *)
Definition is_digit_or_dot (c : char) : bool :=
  between 48 57 c || N.eqb c 46.

(** The pattern of [parse_results]. *)
Definition regex : Re.pattern :=
  [ Re.Lit (txt "Test Case '-[");
    Re.Plus is_word;
    Re.Lit (txt ".");
    Re.Group is_word;
    Re.Lit (txt " ");
    Re.Group is_word;
    Re.Lit (txt "]' measured [Time, seconds] average: ");
    Re.Group is_digit_or_dot;
    Re.Lit (txt ",") ].

(** The body of the [for] loop of [parse_results], over the matches
    still to come. *)
Fixpoint parse_loop (matches : list (list str)) (results : dict spec_float)
  : result (dict spec_float) :=
  match matches with
  | [] => Ok results
  | [classname; testname; average] :: rest =>
      let full_testname := classname ++ txt "." ++ testname in
      match py_float average with
      | Ok v => parse_loop rest (dict_set full_testname v results)
      | Raise e => Raise e
      end
  | _ :: _ => Raise ValueError
  end.

Definition parse_results (output : str) : result (dict spec_float) :=
  parse_loop (Re.finditer regex output) [].

End Extractor.

(* ================================================================= *)
(** ** Bytes, decoding and stripping *)

Definition bytes := list Byte.byte.

Definition is_cont (b : N) : bool := between 128 191 b.

(** Strict UTF-8 decoding of a sequence of byte values: overlong forms,
    surrogates and code points above [0x10FFFF] are errors. *)
Fixpoint utf8 (bs : list N) : option str :=
  match bs with
  | [] => Some []
  | b0 :: r0 =>
      if N.ltb b0 128 then option_map (cons b0) (utf8 r0)
      else if between 194 223 b0 then
        match r0 with
        | b1 :: r1 =>
            if is_cont b1
            then option_map (cons ((b0 - 192) * 64 + (b1 - 128))%N) (utf8 r1)
            else None
        | _ => None
        end
      else if between 224 239 b0 then
        match r0 with
        | b1 :: b2 :: r2 =>
            let cp := ((b0 - 224) * 4096 + (b1 - 128) * 64 + (b2 - 128))%N in
            if is_cont b1 && is_cont b2 && N.leb 2048 cp
               && negb (between 55296 57343 cp)
            then option_map (cons cp) (utf8 r2)
            else None
        | _ => None
        end
      else if between 240 244 b0 then
        match r0 with
        | b1 :: b2 :: b3 :: r3 =>
            let cp := ((b0 - 240) * 262144 + (b1 - 128) * 4096
                       + (b2 - 128) * 64 + (b3 - 128))%N in
            if is_cont b1 && is_cont b2 && is_cont b3
               && between 65536 1114111 cp
            then option_map (cons cp) (utf8 r3)
            else None
        | _ => None
        end
      else None
  end.

(** [b.decode('utf-8')] *)
Definition decode (b : bytes) : result str :=
  match utf8 (map Byte.to_N b) with
  | Some s => Ok s
  | None => Raise UnicodeDecodeError
  end.

(** [str.isspace] of one character: the white space of Unicode. *)
Definition is_space (c : char) : bool :=
  between 9 13 c || between 28 32 c || N.eqb c 133 || N.eqb c 160
  || N.eqb c 5760 || between 8192 8202 c || N.eqb c 8232 || N.eqb c 8233
  || N.eqb c 8239 || N.eqb c 8287 || N.eqb c 12288.

Fixpoint lstrip (s : str) : str :=
  match s with
  | c :: s' => if is_space c then lstrip s' else s
  | [] => []
  end.

Definition rstrip (s : str) : str := rev (lstrip (rev s)).

(** [s.strip()] *)
Definition strip (s : str) : str := rstrip (lstrip s).

(* ================================================================= *)
(** ** External commands and the environment of a run *)

(** What running an external command gives: it ran and exited with a
    return code and its captured output, or the call itself raised (the
    command is missing or cannot be executed, its output cannot be
    decoded). *)
Inductive process (A : Type) : Type :=
| Exited (returncode : Z) (stdout : A)
| Failed (e : exn).
Arguments Exited {A} returncode stdout.
Arguments Failed {A} e.

(** What a run reads from outside: the two commands and the clock. *)
Record env : Type := {
  xcodebuild : process str;     (* the test command, output as text *)
  git_rev_parse : process bytes; (* git rev-parse HEAD *)
  clock_text : string           (* datetime.datetime.now().isoformat() *)
}.

(** The timestamp of a run: [isoformat] gives digits and punctuation,
    plain ASCII text. *)
Definition clock (e : env) : str := txt (clock_text e).

(** [subprocess.run(...)] without [check]: the return code is not
    looked at. *)
Definition subprocess_run {A} (p : process A) : result A :=
  match p with
  | Exited _ out => Ok out
  | Failed e => Raise e
  end.

(** [subprocess.check_output(...)]: a non-zero return code raises. *)
Definition check_output {A} (p : process A) : result A :=
  match p with
  | Exited 0 out => Ok out
  | Exited code _ => Raise (CalledProcessError code)
  | Failed e => Raise e
  end.

Definition rbind {A B} (r : result A) (k : A -> result B) : result B :=
  match r with
  | Ok a => k a
  | Raise e => Raise e
  end.

(** [try: body  except Exception: handler] *)
Definition try_except {A} (body : result A) (handler : exn -> result A)
  : result A :=
  match body with
  | Ok a => Ok a
  | Raise e => handler e
  end.

Definition run_tests (e : env) : result str :=
  subprocess_run (xcodebuild e).

Definition get_git_sha (e : env) : result str :=
  try_except
    (rbind (check_output (git_rev_parse e)) (fun out =>
     rbind (decode out) (fun s =>
     Ok (strip s))))
    (fun _ => Ok (txt "unknown")).

(* ================================================================= *)
(** ** The file system and the state of a run *)

(** What a path names, as far as the two opens of the script tell:
    nothing, in a directory that is there (and whether that directory
    can be written to, so that a file can be created); a regular file
    with its permissions and text; a directory; nothing, for want of the
    directory the path lies in; nothing, because a component of the path
    is a file and no directory. *)
Inductive entry : Type :=
| Absent (creatable : bool)
| File (readable writable : bool) (data : str)
| Dir
| NoDirectory
| NotADirectory.

Definition fs := str -> entry.

Definition fs_set (path : str) (e : entry) (f : fs) : fs :=
  fun q => if str_eqb q path then e else f q.

(** The mutable world of a run: the disk and what was printed. *)
Record state : Type := {
  disk : fs;
  stdout : list str
}.

(** Statements: state passing with exceptions.  A raise keeps the state
    reached so far. *)
Definition M (A : Type) := state -> state * result A.

Definition ret {A} (a : A) : M A := fun st => (st, Ok a).

Definition raise {A} (e : exn) : M A := fun st => (st, Raise e).

Definition bind {A B} (c : M A) (k : A -> M B) : M B :=
  fun st =>
    match c st with
    | (st', Ok a) => k a st'
    | (st', Raise e) => (st', Raise e)
    end.

Definition lift {A} (r : result A) : M A := fun st => (st, r).

Notation "x <- c ;; k" := (bind c (fun x => k))
  (at level 61, c at next level, right associativity).
Notation "c ;;; k" := (bind c (fun _ => k))
  (at level 61, right associativity).

(** [try: body  except FileNotFoundError: handler]: any other exception
    goes through. *)
Definition except_FileNotFoundError {A} (body handler : M A) : M A :=
  fun st =>
    match body st with
    | (st', Raise FileNotFoundError) => handler st'
    | other => other
    end.

(** [open(path, "r")] and the close that ends its [with] block. *)
Definition open_r (path : str) : M unit :=
  fun st =>
    match disk st path with
    | Absent _ => (st, Raise FileNotFoundError)
    | File true _ _ => (st, Ok tt)
    | File false _ _ => (st, Raise PermissionError)
    | Dir => (st, Raise IsADirectoryError)
    | NoDirectory => (st, Raise FileNotFoundError)
    | NotADirectory => (st, Raise NotADirectoryError)
    end.

(** [open(path, "a", newline='')]: creates the file when nothing is
    there and the directory can be written to. *)
Definition open_a (path : str) : M unit :=
  fun st =>
    match disk st path with
    | Absent true =>
        ({| disk := fs_set path (File true true []) (disk st);
            stdout := stdout st |}, Ok tt)
    | Absent false => (st, Raise PermissionError)
    | File _ true _ => (st, Ok tt)
    | File _ false _ => (st, Raise PermissionError)
    | Dir => (st, Raise IsADirectoryError)
    | NoDirectory => (st, Raise FileNotFoundError)
    | NotADirectory => (st, Raise NotADirectoryError)
    end.

(** [f.write(s)] on a file opened for appending at [path]: the text
    is encoded as a whole, and text the codec cannot encode raises and
    adds nothing to the file. *)
Definition write (path : str) (s : str) : M unit :=
  fun st =>
    if encodable s then
      match disk st path with
      | File r w data =>
          ({| disk := fs_set path (File r w (data ++ s)) (disk st);
              stdout := stdout st |}, Ok tt)
      | _ => (st, Ok tt)
      end
    else (st, Raise UnicodeEncodeError).

(** [print(s)] *)
Definition print (s : str) : M unit :=
  fun st => ({| disk := disk st; stdout := stdout st ++ [s] |}, Ok tt).

(* ================================================================= *)
(** ** csv.DictWriter *)

(** The values the script puts in a row. *)
Inductive value : Type :=
| VStr (s : str)
| VFloat (x : spec_float).

Module Csv.
Section Writer.

(** [str(x)] of a float: its shortest decimal representation, plain
    ASCII text. *)
Variable float_str : spec_float -> string.

Definition to_str (v : value) : str :=
  match v with
  | VStr s => s
  | VFloat x => txt (float_str x)
  end.

(** The "excel" dialect with minimal quoting: a field is quoted when it
    holds the delimiter, the quote character or a line break. *)
Definition special (c : char) : bool :=
  N.eqb c 44 || N.eqb c 34 || N.eqb c 13 || N.eqb c 10.

Definition quote (field : str) : str :=
  if existsb special field
  then 34%N :: flat_map (fun c => if N.eqb c 34 then [c; c] else [c]) field
            ++ [34%N]
  else field.

Fixpoint join (fields : list str) : str :=
  match fields with
  | [] => []
  | [f] => f
  | f :: fs => f ++ 44%N :: join fs
  end.

(** One record: the fields, comma separated, and the line terminator.
    A record of a single empty field is written as a pair of quotes. *)
Definition record (fields : list str) : str :=
  match fields with
  | [ [] ] => [34; 34; 13; 10]%N
  | _ => join (map quote fields) ++ [13; 10]%N
  end.

(** [rowdict.get(key, self.restval)] with the default [restval='']. *)
Definition get (rowdict : dict value) (key : str) : value :=
  match dict_get key rowdict with
  | Some v => v
  | None => VStr []
  end.

(** [DictWriter._dict_to_list] with the default [extrasaction='raise']:
    a key of the row that is no field name is an error. *)
Definition dict_to_list (fieldnames : list str) (rowdict : dict value)
  : result (list value) :=
  if existsb (fun k => negb (str_in k fieldnames)) (dict_keys rowdict)
  then Raise ValueError
  else Ok (map (get rowdict) fieldnames).

(** [DictWriter.writerow], on the file opened at [path]. *)
Definition writerow (path : str) (fieldnames : list str)
           (rowdict : dict value) : M unit :=
  fields <- lift (dict_to_list fieldnames rowdict) ;;
  write path (record (map to_str fields)).

(** [DictWriter.writeheader]: the row [dict(zip(fieldnames,
    fieldnames))]. *)
Definition writeheader (path : str) (fieldnames : list str) : M unit :=
  writerow path fieldnames
           (dict_update [] (combine fieldnames (map VStr fieldnames))).

End Writer.
End Csv.

(* ================================================================= *)
(** ** The report writer and the orchestration *)

Section Script.

Variable unicode_alnum : char -> bool.
Variable float_str : spec_float -> string.

(** [str(d)] of a row, as the f-string of [main] formats it. *)
Variable dict_str : dict value -> str.

Definition write_csv_row (csvfile : str) (row : dict value)
           (headers : list str) : M unit :=
  file_exists <- except_FileNotFoundError
                   (open_r csvfile ;;; ret true)
                   (ret false) ;;
  open_a csvfile ;;;
  (if negb file_exists
   then Csv.writeheader float_str csvfile headers
   else ret tt) ;;;
  Csv.writerow float_str csvfile headers row.

(** The row and the header list [main] assembles. *)
Definition report_row (now git_sha : str) (results : dict spec_float)
  : dict value :=
  dict_update [(txt "date", VStr now); (txt "git_sha", VStr git_sha)]
              (map (fun kv => (fst kv, VFloat (snd kv))) results).

Definition report_headers (results : dict spec_float) : list str :=
  [txt "date"; txt "git_sha"] ++ dict_keys results.

Definition main (e : env) : M unit :=
  out <- lift (run_tests e) ;;
  results <- lift (parse_results unicode_alnum out) ;;
  let now := clock e in
  git_sha <- lift (get_git_sha e) ;;
  let row := report_row now git_sha results in
  let headers := report_headers results in
  write_csv_row (txt "perf_results.csv") row headers ;;;
  print (txt "Performance results recorded: " ++ dict_str row).

End Script.

(* ================================================================= *)
(** ** Vocabulary of the statements *)

(** A measurement line of the test tool: module, class, method and the
    decimal of the average. *)
Definition report_line (module_ class method average : str) : str :=
  txt "Test Case '-[" ++ module_ ++ txt "." ++ class ++ txt " " ++ method
  ++ txt "]' measured [Time, seconds] average: " ++ average ++ txt ",".

(** The key [parse_results] composes from the groups of a match. *)
Definition match_key (m : list str) : str :=
  match m with
  | [classname; testname; _] => classname ++ txt "." ++ testname
  | _ => []
  end.

(** The numeric group of a match. *)
Definition match_average (m : list str) : str :=
  match m with
  | [_; _; average] => average
  | _ => []
  end.

(** The keys of a sequence in the order of their first occurrence,
    leaving out those already [seen]. *)
Fixpoint first_seen (seen keys : list str) : list str :=
  match keys with
  | [] => []
  | k :: keys' =>
      if str_in k seen then first_seen seen keys'
      else k :: first_seen (seen ++ [k]) keys'
  end.

(** A decimal literal over digits and dots: at most one dot, at least
    one digit. *)
Definition float_literal (s : str) : bool :=
  (List.length (filter is_dot s) <=? 1)%nat && existsb is_digit s.

(** A word: a non-empty run of [\w] characters. *)
Definition word (unicode_alnum : char -> bool) (w : str) : Prop :=
  w <> [] /\ forallb (is_word unicode_alnum) w = true.

(** The character classes of the capturing groups of a pattern, in the
    order of the groups. *)
Fixpoint groups_of (p : Re.pattern) : list (char -> bool) :=
  match p with
  | [] => []
  | Re.Group cls :: p' => cls :: groups_of p'
  | _ :: p' => groups_of p'
  end.

(** What a group [(cls+)] can capture: a non-empty run of [cls]. *)
Definition captured (cls : char -> bool) (g : str) : Prop :=
  g <> [] /\ forallb cls g = true.

(** No extension of [\w] beyond ASCII: the table for texts that are
    ASCII throughout. *)
Definition ascii_only : char -> bool := fun _ => false.

(** Stand-ins for the two formatting builtins in the closed examples,
    none of which looks at a formatted float or row. *)
Definition float_str_stub : spec_float -> string :=
  fun _ => "<float>"%string.
Definition dict_str_stub : dict value -> str := fun _ => txt "<row>".

(** The binary64 nearest to 0.003. *)
Definition f0_003 : spec_float := S754_finite false 6917529027641082 (-61).

(** The line of the specification's scenario A, as printed there. *)
Definition scenario_A_line : str :=
  txt "Test Case '-[TendrilTreeTests.testInsert] measured [Time, seconds] average: 0.003,".

(** Three measurement lines, the first and the last for the same test. *)
Definition two_runs_text : str :=
  report_line (txt "TendrilTreeTests") (txt "Measurements")
              (txt "testInsert") (txt "0.003")
  ++ txt " relative standard deviation: 4.5%" ++ [10%N]
  ++ report_line (txt "TendrilTreeTests") (txt "Measurements")
                 (txt "testDelete") (txt "0.1")
  ++ [10%N]
  ++ report_line (txt "TendrilTreeTests") (txt "Measurements")
                 (txt "testInsert") (txt "12.5")
  ++ [10%N].

(** A string that neither starts nor ends with white space. *)
Definition starts_clean (s : str) : Prop :=
  match s with
  | c :: _ => is_space c = false
  | [] => True
  end.

Definition trimmed (s : str) : Prop :=
  starts_clean s /\ starts_clean (rev s).

(** A run in a checkout: the revision command prints a hash and a line
    feed, the test command prints [two_runs_text]. *)
Definition sample_env : env := {|
  xcodebuild := Exited 0 two_runs_text;
  git_rev_parse :=
    Exited 0 (list_byte_of_string "9fceb02d0ae598e95dc970b74767f19372d61af8
");
  clock_text := "2024-05-01T12:00:00.000000"
|}.

(** A run outside a checkout: the revision command exits with 128. *)
Definition no_repo_env : env := {|
  xcodebuild := Exited 65 (txt "** TEST FAILED **");
  git_rev_parse :=
    Exited 128 (list_byte_of_string "");
  clock_text := "2024-05-01T12:00:00.000000"
|}.

(** The text of the data row for [row] under [headers]: one field per
    header name, in the order of the headers. *)
Definition data_row (float_str : spec_float -> string) (row : dict value)
           (headers : list str) : str :=
  Csv.record (map (fun h => Csv.to_str float_str (Csv.get row h)) headers).

(** [st'] differs from [st] at most in the file at [path]. *)
Definition touches_only (path : str) (st st' : state) : Prop :=
  stdout st' = stdout st
  /\ forall q, q <> path -> disk st' q = disk st q.

(** The report file of [main]. *)
Definition report_path : str := txt "perf_results.csv".

(** A row without measurements, and a row with a key that is no header. *)
Definition plain_row : dict value :=
  [(txt "date", VStr (txt "2024-05-01T12:00:00"));
   (txt "git_sha", VStr (txt "unknown"))].

Definition extra_row : dict value :=
  [(txt "date", VStr (txt "2024-05-01T12:00:00"));
   (txt "extra", VStr (txt "x"))].

(** A machine without the test tool, and a test run whose output has a
    malformed average. *)
Definition no_xcode_env : env := {|
  xcodebuild := Failed FileNotFoundError;
  git_rev_parse := Exited 128 (list_byte_of_string "");
  clock_text := "2024-05-01T12:00:00.000000"
|}.

Definition malformed_env : env := {|
  xcodebuild :=
    Exited 0 (report_line (txt "TendrilTreeTests") (txt "Measurements")
                          (txt "testInsert") (txt "1.2.3"));
  git_rev_parse := Exited 128 (list_byte_of_string "");
  clock_text := "2024-05-01T12:00:00.000000"
|}.

(** The output of a test run as far as the extractor is concerned:
    measurement lines, each after some other text, and some text at the
    end.  An item is the text before a line and the module, class,
    method and average of the line. *)
Definition report_item := (str * (str * str * str * str))%type.

Fixpoint report_text (items : list report_item) (tail : str) : str :=
  match items with
  | [] => tail
  | (sep, (m, c, t, a)) :: items' =>
      sep ++ report_line m c t a ++ report_text items' tail
  end.

(** The groups the pattern captures on the line of an item. *)
Definition item_groups (it : report_item) : list str :=
  match it with
  | (_, (_, c, t, a)) => [c; t; a]
  end.

(** An item the pattern is made for: words for the module, the class
    and the method, digits and dots for the average, and no apostrophe
    in the text before the line. *)
Definition item_ok (ua : char -> bool) (it : report_item) : Prop :=
  match it with
  | (sep, (m, c, t, a)) =>
      ~ In 39%N sep /\ word ua m /\ word ua c /\ word ua t
      /\ captured is_digit_or_dot a
  end.

(** A run of the test tool: two tests measured, one of them in two
    modules, with the text the tool prints around the lines. *)
Definition sample_items : list report_item :=
  [ (txt "Test Suite Measurements started" ++ [10%N],
     (txt "TendrilTreeTests", txt "Measurements", txt "testInsert",
      txt "0.003"));
    (txt " relative standard deviation: 4.5%" ++ [10%N],
     (txt "TendrilTreeTests", txt "Measurements", txt "testDelete",
      txt "0.1"));
    (txt " relative standard deviation: 1.2%" ++ [10%N],
     (txt "OtherTests", txt "Measurements", txt "testInsert",
      txt "12.5")) ].


(** A row with one measurement, and the header list that goes with it. *)
Definition measured_row : dict value :=
  [(txt "date", VStr (txt "2024-05-02T09:30:00"));
   (txt "git_sha", VStr (txt "unknown"));
   (txt "Measurements.testInsert", VFloat f0_003)].

Definition measured_headers : list str :=
  [txt "date"; txt "git_sha"; txt "Measurements.testInsert"].

(** The run of [sample_env] with a failing test command: the same
    output, return code 65. *)
Definition failing_tests_env : env := {|
  xcodebuild := Exited 65 two_runs_text;
  git_rev_parse := git_rev_parse sample_env;
  clock_text := clock_text sample_env
|}.

(** A float that is zero, positive or plus infinity. *)
Definition nonneg_float (x : spec_float) : bool :=
  match x with
  | S754_zero false | S754_infinity false | S754_finite false _ _ => true
  | _ => false
  end.

(** A disk where nothing exists and anything can be created. *)
Definition empty_disk : fs := fun _ => Absent true.

Definition fresh : state := {| disk := empty_disk; stdout := [] |}.

(** A disk that holds a report with a header and no row yet. *)
Definition started : state :=
  {| disk := fs_set report_path
                    (File true true (txt "date,git_sha" ++ [13; 10]%N))
                    empty_disk;
     stdout := [] |}.

(** Disks where the report cannot be written: a file that cannot be
    read, a file that cannot be written, a directory at the path, no
    directory to create the file in, a directory that cannot be written
    to, a file where the directory should be. *)
Definition unreadable : state :=
  {| disk := fs_set report_path (File false true (txt "date,git_sha"))
                    empty_disk;
     stdout := [] |}.

Definition read_only : state :=
  {| disk := fs_set report_path (File true false (txt "date,git_sha"))
                    empty_disk;
     stdout := [] |}.

Definition is_directory : state :=
  {| disk := fs_set report_path Dir empty_disk; stdout := [] |}.





(* ================================================================= *)
(** * Properties *)

Unset Implicit Arguments.

(** ** Strings and dictionaries *)

Lemma str_eqb_eq (a b : str) : str_eqb a b = true <-> a = b.
Proof.
  revert b; induction a as [|x a IH]; intros [|y b]; simpl;
    try (split; [discriminate | discriminate]); try tauto.
  rewrite andb_true_iff, N.eqb_eq, IH.
  split; [intros [-> ->]; reflexivity | intros H; inversion H; auto].
Qed.

Lemma str_eqb_refl (a : str) : str_eqb a a = true.
Proof. apply str_eqb_eq; reflexivity. Qed.

Lemma str_eqb_neq (a b : str) : str_eqb a b = false <-> a <> b.
Proof.
  rewrite <- str_eqb_eq. destruct (str_eqb a b); split; congruence.
Qed.

Lemma str_in_In (k : str) (l : list str) : str_in k l = true <-> In k l.
Proof.
  unfold str_in. rewrite existsb_exists. split.
  - intros (x & Hx & E). apply str_eqb_eq in E. subst; assumption.
  - intros H. exists k. split; [assumption | apply str_eqb_refl].
Qed.

Lemma str_in_not_In (k : str) (l : list str) :
  str_in k l = false <-> ~ In k l.
Proof.
  rewrite <- str_in_In. destruct (str_in k l); split; congruence.
Qed.

Section DictFacts.
Context {V : Type}.
Implicit Types (d : dict V) (k : str) (v : V).

Lemma dict_get_set_same k v d : dict_get k (dict_set k v d) = Some v.
Proof.
  induction d as [|[k' v'] d IH]; simpl.
  - rewrite str_eqb_refl; reflexivity.
  - destruct (str_eqb k k') eqn:E; simpl; rewrite E; auto.
Qed.

Lemma dict_get_set_other k k' v d :
  k <> k' -> dict_get k (dict_set k' v d) = dict_get k d.
Proof.
  intros Hne. induction d as [|[k0 v0] d IH]; simpl.
  - apply str_eqb_neq in Hne. rewrite Hne; reflexivity.
  - destruct (str_eqb k' k0) eqn:E; simpl.
    + apply str_eqb_eq in E. subst k0.
      apply str_eqb_neq in Hne. rewrite Hne; reflexivity.
    + rewrite IH; reflexivity.
Qed.

Lemma dict_keys_set k v d :
  dict_keys (dict_set k v d)
  = if str_in k (dict_keys d) then dict_keys d else dict_keys d ++ [k].
Proof.
  induction d as [|[k0 v0] d IH]; simpl; [reflexivity|].
  destruct (str_eqb k k0) eqn:E; simpl; [reflexivity|].
  unfold dict_keys in *. rewrite IH.
  unfold str_in. destruct (existsb (str_eqb k) (map fst d)); reflexivity.
Qed.

Lemma dict_get_None k d : dict_get k d = None <-> ~ In k (dict_keys d).
Proof.
  induction d as [|[k0 v0] d IH]; simpl; [tauto|].
  destruct (str_eqb k k0) eqn:E.
  - apply str_eqb_eq in E. subst. split; [discriminate | tauto].
  - apply str_eqb_neq in E. rewrite IH. split; [intros H [?|?]|]; intuition congruence.
Qed.

End DictFacts.

(** ** The regular-expression engine *)

Module ReFacts.
Import Re.

Lemma strip_prefix_app (l s : str) : strip_prefix l (l ++ s) = Some s.
Proof.
  induction l as [|c l IH]; simpl; [reflexivity|].
  rewrite N.eqb_refl. exact IH.
Qed.

Lemma run_le_length cls (s : str) : (run cls s <= List.length s)%nat.
Proof.
  induction s as [|c s IH]; simpl; [lia|].
  destruct (cls c); simpl; lia.
Qed.

Lemma run_firstn cls (s : str) (n : nat) :
  (n <= run cls s)%nat -> forallb cls (firstn n s) = true.
Proof.
  revert n; induction s as [|c s IH]; intros [|n]; simpl; auto.
  destruct (cls c) eqn:E; [|lia].
  intros H. simpl. apply IH. lia.
Qed.

Lemma run_app_stop cls (w : str) (c : char) (s : str) :
  forallb cls w = true -> cls c = false ->
  run cls (w ++ c :: s) = List.length w.
Proof.
  intros Hw Hc. induction w as [|x w IH]; simpl in *.
  - rewrite Hc; reflexivity.
  - apply andb_true_iff in Hw as [-> Hw]. rewrite IH; auto.
Qed.

Lemma run_all cls (w : str) :
  forallb cls w = true -> run cls w = List.length w.
Proof.
  induction w as [|x w IH]; simpl; [reflexivity|].
  intros H. apply andb_true_iff in H as [-> Hw]. rewrite IH; auto.
Qed.

Lemma run_skipn_stop cls (s : str) :
  match skipn (run cls s) s with
  | [] => True
  | c :: _ => cls c = false
  end.
Proof.
  induction s as [|c s IH]; simpl; [exact I|].
  destruct (cls c) eqn:E; simpl; [exact IH | exact E].
Qed.

Lemma firstn_nonempty (s : str) (n : nat) :
  (1 <= n <= List.length s)%nat -> firstn n s <> [].
Proof.
  destruct n, s; simpl; intros; try lia; discriminate.
Qed.

Lemma greedy_some {B} (k : nat -> option B) (n : nat) (r : B) :
  greedy k n = Some r -> exists m, (1 <= m <= n)%nat /\ k m = Some r.
Proof.
  induction n as [|n IH]; simpl; [discriminate|].
  destruct (k (S n)) eqn:E.
  - intros [= ->]. exists (S n). split; [lia | exact E].
  - intros H. destruct (IH H) as (m & Hm & Hk).
    exists m. split; [lia | exact Hk].
Qed.

Lemma greedy_first {B} (k : nat -> option B) (n : nat) (r : B) :
  n <> O -> k n = Some r -> greedy k n = Some r.
Proof.
  destruct n; [congruence|]. intros _ H. simpl. rewrite H. reflexivity.
Qed.

(** Every group of a match is a non-empty run of its class. *)
Lemma match_here_groups (p : pattern) (s : str) gs r :
  match_here p s = Some (gs, r) -> Forall2 captured (groups_of p) gs.
Proof.
  revert s gs r. induction p as [|a p IH]; intros s gs r; simpl.
  - intros [= <- <-]. constructor.
  - destruct a as [l|cls|cls].
    + destruct (strip_prefix l s); [|discriminate]. apply IH.
    + intros H. apply greedy_some in H as (m & _ & H). eapply IH, H.
    + intros H. apply greedy_some in H as (m & Hm & H).
      destruct (match_here p (skipn m s)) as [[gs' r']|] eqn:E;
        [|discriminate].
      injection H as <- <-. constructor; [|eapply IH, E].
      pose proof (run_le_length cls s). split.
      * apply firstn_nonempty. lia.
      * apply run_firstn. lia.
Qed.

(** Every match the scan reports is a match of the pattern at some
    position of the text. *)
Lemma scan_In (p : pattern) (s : str) (k : nat) gs :
  In gs (scan p k s) ->
  exists n r, match_here p (skipn n s) = Some (gs, r).
Proof.
  revert k. induction s as [|c s IH]; intros k; simpl.
  - destruct k; [|intros []].
    destruct (match_here p []) as [[gs' r']|] eqn:E; [|intros []].
    intros [<-|[]]. exists O, r'. exact E.
  - destruct k as [|k].
    + destruct (match_here p (c :: s)) as [[gs' r']|] eqn:E.
      * intros [<-|H].
        -- exists O, r'. exact E.
        -- destruct (IH _ H) as (n & r & Hn). exists (S n), r. exact Hn.
      * intros H. destruct (IH _ H) as (n & r & Hn).
        exists (S n), r. exact Hn.
    + intros H. destruct (IH _ H) as (n & r & Hn).
      exists (S n), r. exact Hn.
Qed.

(** A text none of whose positions matches has no match. *)
Lemma scan_nil (p : pattern) (s : str) (k : nat) :
  (forall n, match_here p (skipn n s) = None) -> scan p k s = [].
Proof.
  revert k. induction s as [|c s IH]; intros k H; simpl.
  - specialize (H O). simpl in H. rewrite H. destruct k; reflexivity.
  - destruct k as [|k].
    + pose proof (H O) as H0. simpl in H0. rewrite H0.
      apply IH. intros n. exact (H (S n)).
    + apply IH. intros n. exact (H (S n)).
Qed.

(** After a match the scan resumes where the match ended. *)
Lemma scan_skip (p : pattern) (s1 s2 : str) :
  scan p (List.length s1) (s1 ++ s2) = scan p O s2.
Proof.
  induction s1 as [|c s1 IH]; simpl; [reflexivity | exact IH].
Qed.

Lemma scan_match (p : pattern) (s1 s2 : str) gs :
  s1 <> [] ->
  match_here p (s1 ++ s2) = Some (gs, s2) ->
  scan p O (s1 ++ s2) = gs :: scan p O s2.
Proof.
  destruct s1 as [|c s1]; [congruence|]. intros _ H.
  change ((c :: s1) ++ s2) with (c :: s1 ++ s2) in *.
  cbn [scan]. rewrite H. f_equal.
  replace (List.length (c :: s1 ++ s2) - List.length s2 - 1)%nat
    with (List.length s1).
  - apply scan_skip.
  - cbn [List.length]. rewrite length_app. lia.
Qed.

Lemma skipn_length_app (w s : str) : skipn (List.length w) (w ++ s) = s.
Proof. induction w; simpl; auto. Qed.

Lemma firstn_length_app (w s : str) : firstn (List.length w) (w ++ s) = w.
Proof. induction w; simpl; congruence. Qed.

Lemma match_lit (l : str) (p : pattern) (s : str) x :
  match_here p s = Some x -> match_here (Lit l :: p) (l ++ s) = Some x.
Proof. intros H. cbn [match_here]. rewrite strip_prefix_app. exact H. Qed.

(** A greedy run followed by a character outside its class stops
    there and needs no backtracking. *)
Lemma match_plus_stop cls (p : pattern) (w : str) (c : char) (s : str) x :
  captured cls w -> cls c = false ->
  match_here p (c :: s) = Some x ->
  match_here (Plus cls :: p) (w ++ c :: s) = Some x.
Proof.
  intros [Hne Hw] Hc H. cbn [match_here].
  rewrite run_app_stop by assumption.
  apply greedy_first; [destruct w; simpl; congruence|].
  rewrite skipn_length_app. exact H.
Qed.

Lemma match_group_stop cls (p : pattern) (w : str) (c : char) (s : str)
      gs r :
  captured cls w -> cls c = false ->
  match_here p (c :: s) = Some (gs, r) ->
  match_here (Group cls :: p) (w ++ c :: s) = Some (w :: gs, r).
Proof.
  intros [Hne Hw] Hc H. cbn [match_here].
  rewrite run_app_stop by assumption.
  apply greedy_first; [destruct w; simpl; congruence|].
  rewrite skipn_length_app, firstn_length_app, H. reflexivity.
Qed.

End ReFacts.

(** ** The result extractor *)

Section ExtractorFacts.

Variable ua : char -> bool.


(** A match of the script's pattern has three groups: two words and a
    non-empty run of digits and dots. *)
Lemma regex_match_shape (text : str) (m : list str) :
  In m (Re.finditer (regex ua) text) ->
  exists c t a, m = [c; t; a] /\ word ua c /\ word ua t
                /\ captured is_digit_or_dot a.
Proof.
  intros H. apply ReFacts.scan_In in H as (n & r & H).
  apply ReFacts.match_here_groups in H. cbn in H.
  inversion H as [|? c ? ? Hc H1]; subst.
  inversion H1 as [|? t ? ? Ht H2]; subst.
  inversion H2 as [|? a ? ? Ha H3]; subst.
  inversion H3; subst.
  exists c, t, a. repeat split; try apply Hc; try apply Ht; apply Ha.
Qed.

(** The pattern matches a measurement line wherever one starts, and
    captures its class, method and average. *)
Lemma match_report_line (m c t a rest : str) :
  word ua m -> word ua c -> word ua t -> captured is_digit_or_dot a ->
  Re.match_here (regex ua) (report_line m c t a ++ rest)
  = Some ([c; t; a], rest).
Proof.
  intros Hm Hc Ht Ha. unfold report_line, regex.
  rewrite <- !app_assoc.
  apply ReFacts.match_lit.
  apply ReFacts.match_plus_stop with (c := 46%N); [exact Hm | reflexivity |].
  apply (ReFacts.match_lit (txt ".")).
  apply ReFacts.match_group_stop with (c := 32%N); [exact Hc | reflexivity |].
  apply (ReFacts.match_lit (txt " ")).
  apply ReFacts.match_group_stop with (c := 93%N); [exact Ht | reflexivity |].
  apply (ReFacts.match_lit (txt "]' measured [Time, seconds] average: ")).
  apply ReFacts.match_group_stop with (c := 44%N); [exact Ha | reflexivity |].
  apply (ReFacts.match_lit (txt ",")).
  reflexivity.
Qed.

End ExtractorFacts.

(** ** float() *)

Lemma is_digit_not_dot (c : char) : is_digit c = true -> is_dot c = false.
Proof.
  unfold is_digit, is_dot, between. intros H.
  apply andb_true_iff in H as [H _]. apply N.leb_le in H.
  apply N.eqb_neq. lia.
Qed.

Lemma digits_no_dot (l : str) :
  forallb is_digit l = true -> filter is_dot l = [].
Proof.
  induction l as [|c l IH]; simpl; [reflexivity|].
  intros H. apply andb_true_iff in H as [Hc Hl].
  rewrite (is_digit_not_dot _ Hc). auto.
Qed.

Lemma digits_existsb (l : str) :
  forallb is_digit l = true ->
  existsb is_digit l = match l with [] => false | _ => true end.
Proof.
  destruct l as [|c l]; simpl; [reflexivity|].
  intros H. apply andb_true_iff in H as [-> _]. reflexivity.
Qed.

Lemma digit_or_dot_cases (c : char) :
  is_digit_or_dot c = true -> is_digit c = false -> is_dot c = true.
Proof.
  unfold is_digit_or_dot, is_digit, is_dot. intros H E.
  rewrite E in H. exact H.
Qed.

(** [float] raises nothing but [ValueError]. *)
Lemma py_float_raises (s : str) (e : exn) :
  py_float s = Raise e -> e = ValueError.
Proof.
  unfold py_float.
  destruct (skipn (Re.run is_digit s) s) as [|c r].
  - destruct (firstn (Re.run is_digit s) s); intros [=]; auto.
  - destruct (is_dot c); [|intros [=]; auto].
    destruct (skipn (Re.run is_digit r) r);
      destruct (firstn (Re.run is_digit s) s ++ firstn (Re.run is_digit r) r);
      intros [=]; auto.
Qed.

Lemma run_split cls (s : str) :
  exists w r, s = w ++ r
    /\ firstn (Re.run cls s) s = w /\ skipn (Re.run cls s) s = r
    /\ forallb cls w = true
    /\ match r with [] => True | c :: _ => cls c = false end.
Proof.
  exists (firstn (Re.run cls s) s), (skipn (Re.run cls s) s).
  repeat split.
  - symmetry. apply firstn_skipn.
  - apply ReFacts.run_firstn. apply le_n.
  - apply ReFacts.run_skipn_stop.
Qed.

(** On a string of digits and dots, [float] succeeds exactly on the
    decimal literals. *)
Lemma py_float_literal (s : str) :
  forallb is_digit_or_dot s = true ->
  (exists v, py_float s = Ok v) <-> float_literal s = true.
Proof.
  intros Hs. unfold py_float, float_literal.
  destruct (run_split is_digit s) as (ip & r & Es & -> & -> & Hip & Hstop).
  rewrite Es in Hs |- * at 1 2. clear Es.
  rewrite filter_app, existsb_app, length_app,
    (digits_no_dot _ Hip), (digits_existsb _ Hip).
  rewrite forallb_app in Hs. apply andb_true_iff in Hs as [_ Hr].
  destruct r as [|c r].
  - simpl. destruct ip; simpl; split; try discriminate; eauto.
    intros [v [=]].
  - simpl in Hr. apply andb_true_iff in Hr as [Hc Hr].
    pose proof (digit_or_dot_cases _ Hc Hstop) as Hdot.
    rewrite Hdot. cbn [filter existsb]. rewrite Hdot, Hstop.
    destruct (run_split is_digit r) as (fp & r' & Er & -> & -> & Hfp & Hstop').
    rewrite Er in Hr |- * at 1 2. clear Er.
    rewrite filter_app, existsb_app, (digits_no_dot _ Hfp),
      (digits_existsb _ Hfp).
    rewrite forallb_app in Hr. apply andb_true_iff in Hr as [_ Hr'].
    destruct r' as [|c' r'].
    + destruct ip, fp; simpl; split; try discriminate; eauto.
      intros [v [=]].
    + simpl in Hr'. apply andb_true_iff in Hr' as [Hc' _].
      cbn [filter existsb].
      rewrite (digit_or_dot_cases _ Hc' Hstop'). simpl.
      split; [intros [v H]|discriminate].
      destruct (ip ++ fp); discriminate.
Qed.

(** ** The loop of parse_results *)

Section ParseFacts.

Variable ua : char -> bool.

(** The loop assigns the matches one after the other. *)
Lemma parse_loop_app (l1 l2 : list (list str)) (acc : dict spec_float) :
  parse_loop (l1 ++ l2) acc = rbind (parse_loop l1 acc) (parse_loop l2).
Proof.
  revert acc. induction l1 as [|m l1 IH]; intros acc; simpl; [reflexivity|].
  destruct m as [|c [|t [|a [|x m]]]]; try reflexivity.
  destruct (py_float a); [apply IH | reflexivity].
Qed.

(** A loop that ends normally has converted every match it was given. *)
Lemma parse_loop_ok (ms : list (list str)) (acc d : dict spec_float) :
  parse_loop ms acc = Ok d ->
  Forall (fun m => exists c t a v, m = [c; t; a] /\ py_float a = Ok v) ms.
Proof.
  revert acc. induction ms as [|m ms IH]; intros acc; simpl; [constructor|].
  destruct m as [|c [|t [|a [|x m]]]]; try discriminate.
  destruct (py_float a) as [v|e] eqn:E; [|discriminate].
  intros H. constructor; [exists c, t, a, v; auto | eapply IH, H].
Qed.

(** Conversely the loop ends normally when every numeric group
    converts. *)
Lemma parse_loop_total (ms : list (list str)) (acc : dict spec_float) :
  Forall (fun m => exists c t a v, m = [c; t; a] /\ py_float a = Ok v) ms ->
  exists d, parse_loop ms acc = Ok d.
Proof.
  intros H. revert acc. induction H as [|m ms Hm _ IH]; intros acc; simpl.
  - exists acc; reflexivity.
  - destruct Hm as (c & t & a & v & -> & E). rewrite E. apply IH.
Qed.

(** The loop raises nothing but [ValueError]. *)
Lemma parse_loop_raises (ms : list (list str)) (acc : dict spec_float) e :
  parse_loop ms acc = Raise e -> e = ValueError.
Proof.
  revert acc. induction ms as [|m ms IH]; intros acc; simpl; [discriminate|].
  destruct m as [|c [|t [|a [|x m]]]]; try solve [intros [=]; auto].
  destruct (py_float a) as [v|e'] eqn:E; [intros H; eapply IH, H|].
  intros [= <-]. eapply py_float_raises, E.
Qed.

(** Matches of other keys leave the value of a key alone. *)
Lemma parse_loop_get_other (ms : list (list str)) (acc d : dict spec_float)
      (k : str) :
  parse_loop ms acc = Ok d ->
  (forall m, In m ms -> match_key m <> k) ->
  dict_get k d = dict_get k acc.
Proof.
  revert acc. induction ms as [|m ms IH]; intros acc; cbn [parse_loop].
  - intros [= ->] _. reflexivity.
  - destruct m as [|c [|t [|a [|x m]]]]; try discriminate.
    destruct (py_float a) as [v|e] eqn:E; [|discriminate].
    intros H Hk. rewrite (IH _ H) by (intros m' Hm'; apply Hk; right; exact Hm').
    apply dict_get_set_other. intros ->.
    apply (Hk [c; t; a]); [left|]; reflexivity.
Qed.

(** The keys of the result: those of the start, then the keys of the
    matches in the order they are first seen. *)
Lemma parse_loop_keys (ms : list (list str)) (acc d : dict spec_float) :
  parse_loop ms acc = Ok d ->
  dict_keys d = dict_keys acc ++ first_seen (dict_keys acc) (map match_key ms).
Proof.
  revert acc. induction ms as [|m ms IH]; intros acc;
    cbn [parse_loop map first_seen].
  - intros [= ->]. rewrite app_nil_r. reflexivity.
  - destruct m as [|c [|t [|a [|x m]]]]; try discriminate.
    destruct (py_float a) as [v|e] eqn:E; [|discriminate].
    intros H. rewrite (IH _ H), dict_keys_set. cbn [match_key].
    destruct (str_in (c ++ txt "." ++ t) (dict_keys acc)); [reflexivity|].
    rewrite <- app_assoc. reflexivity.
Qed.

Lemma first_seen_In (seen keys : list str) (k : str) :
  In k (first_seen seen keys) -> In k keys.
Proof.
  revert seen. induction keys as [|x keys IH]; intros seen; simpl; [auto|].
  destruct (str_in x seen); [eauto|].
  intros [->|H]; eauto.
Qed.

(** Every key of the result of [parse_results] is the key of a match. *)
Lemma parse_results_key_of_match (text : str) (d : dict spec_float) (k : str) :
  parse_results ua text = Ok d -> In k (dict_keys d) ->
  exists m, In m (Re.finditer (regex ua) text) /\ k = match_key m.
Proof.
  unfold parse_results. intros H Hk.
  rewrite (parse_loop_keys _ _ _ H) in Hk. simpl in Hk.
  apply first_seen_In, in_map_iff in Hk as (m & <- & Hm).
  exists m. auto.
Qed.

End ParseFacts.

(** ** Properties of parse_results *)

(** Text in which no match starts is passed over: the scan goes on
    behind it. *)
Lemma scan_passes_over (p : Re.pattern) (pre s : str) :
  (forall n, (n < List.length pre)%nat ->
             Re.match_here p (skipn n (pre ++ s)) = None) ->
  Re.scan p O (pre ++ s) = Re.scan p O s.
Proof.
  induction pre as [|c pre IH]; intros H; [reflexivity|].
  change ((c :: pre) ++ s) with (c :: pre ++ s) in *. cbn [Re.scan].
  pose proof (H O) as H0. cbn [skipn List.length] in H0.
  rewrite H0 by lia. apply IH. intros n Hn.
  apply (H (S n)). cbn [List.length]. lia.
Qed.

(** C1, as amended.  On a text that contains a measurement line
    [Test Case '-[<Module>.<Class> <method>]' measured [Time, seconds]
    average: <decimal>,], with no match of the pattern starting before
    the line and none after it, [parse_results] returns the one-entry
    mapping from ["<Class>.<method>"] to the float of the decimal. *)
Theorem parse_results_report_line
        (ua : char -> bool) (pre m c t a rest : str) (v : spec_float) :
  word ua m -> word ua c -> word ua t -> captured is_digit_or_dot a ->
  (forall n, (n < List.length pre)%nat ->
             Re.match_here (regex ua)
                           (skipn n (pre ++ report_line m c t a ++ rest))
             = None) ->
  Re.finditer (regex ua) rest = [] ->
  py_float a = Ok v ->
  parse_results ua (pre ++ report_line m c t a ++ rest)
  = Ok [(c ++ txt "." ++ t, v)].
Proof.
  intros Hm Hc Ht Ha Hpre Hrest Hv. unfold parse_results, Re.finditer.
  rewrite scan_passes_over by exact Hpre.
  rewrite ReFacts.scan_match with (gs := [c; t; a])
    by (try apply match_report_line; auto; unfold report_line; discriminate).
  unfold Re.finditer in Hrest. rewrite Hrest.
  cbn [parse_loop]. rewrite Hv. reflexivity.
Qed.

(** The line with module [TendrilTree], class [TendrilTreeTests], method
    [testInsert] and average 0.003, after a line of the test tool and
    with the rest of its own line behind it, gives the mapping of
    scenario A. *)
Lemma parse_results_report_line_witness :
  parse_results ascii_only
    (txt "Test Suite 'Measurements' started." ++ [10%N]
     ++ txt "Test Case '-[TendrilTree.TendrilTreeTests testInsert]' measured [Time, seconds] average: 0.003, relative standard deviation: 4.5%"
     ++ [10%N])
  = Ok [(txt "TendrilTreeTests.testInsert", f0_003)].
Proof.
  refine (parse_results_report_line ascii_only
            (txt "Test Suite 'Measurements' started." ++ [10%N])
            (txt "TendrilTree") (txt "TendrilTreeTests")
            (txt "testInsert") (txt "0.003")
            (txt " relative standard deviation: 4.5%" ++ [10%N]) f0_003
            _ _ _ _ _ _ _);
    try (split; [discriminate | reflexivity]); try reflexivity.
  intros n Hn.
  do 35 (destruct n as [|n]; [reflexivity|]).
  cbn in Hn. lia.
Defined.

(** C1, the claim as stated fails: the line printed in scenario A has no
    space-separated method name and no closing quote, the pattern does
    not match it and the result is the empty mapping. *)
Lemma scenario_A_line_not_matched :
  parse_results ascii_only scenario_A_line = Ok []
  /\ parse_results ascii_only scenario_A_line
     <> Ok [(txt "TendrilTreeTests.testInsert", f0_003)].
Proof.
  assert (E : parse_results ascii_only scenario_A_line = Ok [])
    by (vm_compute; reflexivity).
  split; [exact E | rewrite E; discriminate].
Qed.

(** C9.  A text in which the pattern matches at no position gives the
    empty mapping, and no error. *)
Theorem parse_results_no_match (ua : char -> bool) (text : str) :
  (forall n, Re.match_here (regex ua) (skipn n text) = None) ->
  parse_results ua text = Ok [].
Proof.
  intros H. unfold parse_results, Re.finditer.
  rewrite ReFacts.scan_nil by exact H. reflexivity.
Qed.

Lemma parse_results_no_match_witness :
  parse_results ascii_only (txt "** TEST FAILED **") = Ok [].
Proof.
  apply parse_results_no_match. intros n.
  do 17 (destruct n as [|n]; [reflexivity|]).
  destruct n; reflexivity.
Defined.

(** C2, the claim as stated fails: the class [[0-9.]] lets a group with
    two dots through, and [float] raises on it. *)
Lemma malformed_average_raises :
  parse_results ascii_only
    (txt "Test Case '-[TendrilTreeTests.Measurements testInsert]' measured [Time, seconds] average: 1.2.3, relative standard deviation: 4.5%")
  = Raise ValueError.
Proof. vm_compute. reflexivity. Qed.

(** C2, as amended.  Every numeric group is a non-empty string of digits
    and dots; [parse_results] returns a mapping exactly when each of them
    is a decimal literal (at most one dot, at least one digit), and what
    it raises otherwise is [ValueError]. *)
Theorem parse_results_returns_iff (ua : char -> bool) (text : str) :
  Forall (fun m => captured is_digit_or_dot (match_average m))
         (Re.finditer (regex ua) text)
  /\ ((exists d, parse_results ua text = Ok d)
      <-> Forall (fun m => float_literal (match_average m) = true)
                 (Re.finditer (regex ua) text))
  /\ (forall e, parse_results ua text = Raise e -> e = ValueError).
Proof.
  assert (Hshape : Forall (fun m => exists c t a, m = [c; t; a]
                             /\ captured is_digit_or_dot a)
                          (Re.finditer (regex ua) text)).
  { apply Forall_forall. intros m Hm.
    destruct (regex_match_shape ua text m Hm) as (c & t & a & -> & _ & _ & Ha).
    exists c, t, a. auto. }
  split; [|split].
  - eapply Forall_impl; [|exact Hshape].
    intros m (c & t & a & -> & Ha). exact Ha.
  - unfold parse_results. split.
    + intros [d H]. apply parse_loop_ok in H.
      rewrite Forall_forall in *. intros m Hm.
      destruct (Hshape m Hm) as (c & t & a & -> & _ & Ha).
      destruct (H _ Hm) as (c' & t' & a' & v & [= <- <- <-] & Hv).
      apply py_float_literal; eauto.
    + intros H. apply parse_loop_total.
      rewrite Forall_forall in *. intros m Hm.
      destruct (Hshape m Hm) as (c & t & a & -> & _ & Ha).
      specialize (H _ Hm). cbn [match_average] in H.
      apply py_float_literal in H as [v Hv]; [|exact Ha].
      exists c, t, a, v. auto.
  - intros e. apply parse_loop_raises.
Qed.

Lemma parse_results_returns_iff_witness :
  exists d,
    parse_results ascii_only
      (txt "Test Case '-[TendrilTreeTests.Measurements testInsert]' measured [Time, seconds] average: 1.25, relative standard deviation: 4.5%")
    = Ok d.
Proof.
  apply (proj2 (proj1 (proj2 (parse_results_returns_iff ascii_only _)))).
  vm_compute. repeat constructor.
Defined.

(** C8.  Whenever [parse_results] returns a mapping, a key is mapped to
    the float of the last match that reports it: the matches before it,
    those of the same key among them, are overwritten. *)
Theorem later_match_wins
        (ua : char -> bool) (text : str) (d : dict spec_float)
        (before after : list (list str)) (c t a : str) :
  parse_results ua text = Ok d ->
  Re.finditer (regex ua) text = before ++ [c; t; a] :: after ->
  (forall m, In m after -> match_key m <> c ++ txt "." ++ t) ->
  exists v, py_float a = Ok v /\ dict_get (c ++ txt "." ++ t) d = Some v.
Proof.
  unfold parse_results. intros H E Hafter. rewrite E in H.
  rewrite parse_loop_app in H.
  destruct (parse_loop before []) as [d0|e]; [|discriminate].
  cbn [rbind parse_loop] in H.
  destruct (py_float a) as [v|e]; [|discriminate].
  exists v. split; [reflexivity|].
  rewrite (parse_loop_get_other _ _ _ _ H Hafter).
  apply dict_get_set_same.
Qed.

(** Two lines for [Measurements.testInsert], 0.003 and then 12.5, with
    another test in between: the key is mapped to 12.5. *)
Lemma later_match_wins_witness :
  exists d,
    parse_results ascii_only two_runs_text = Ok d
    /\ dict_get (txt "Measurements.testInsert") d
       = Some (S754_finite false 7036874417766400 (-49)).
Proof.
  destruct (parse_results ascii_only two_runs_text) as [d|e] eqn:E;
    [|vm_compute in E; discriminate].
  exists d. split; [reflexivity|].
  destruct (later_match_wins ascii_only two_runs_text d
              [[txt "Measurements"; txt "testInsert"; txt "0.003"];
               [txt "Measurements"; txt "testDelete"; txt "0.1"]]
              [] (txt "Measurements") (txt "testInsert") (txt "12.5") E)
    as (v & Hv & Hd).
  - vm_compute. reflexivity.
  - intros m [].
  - vm_compute in Hv. injection Hv as <-. exact Hd.
Defined.

(** ** Stripping and the revision lookup *)

Lemma forallb_rev {A} (f : A -> bool) (l : list A) :
  forallb f (rev l) = forallb f l.
Proof.
  induction l as [|x l IH]; simpl; [reflexivity|].
  rewrite forallb_app, IH. simpl. rewrite andb_true_r. apply andb_comm.
Qed.

Lemma lstrip_spec (s : str) :
  exists l, s = l ++ lstrip s /\ forallb is_space l = true
            /\ starts_clean (lstrip s).
Proof.
  induction s as [|c s (l & E & Hl & H)]; simpl.
  - exists []. repeat split.
  - destruct (is_space c) eqn:Ec.
    + exists (c :: l). simpl. rewrite Ec, Hl. split; [congruence | auto].
    + exists []. simpl. auto.
Qed.

Lemma rstrip_spec (s : str) :
  exists r, s = rstrip s ++ r /\ forallb is_space r = true
            /\ starts_clean (rev (rstrip s)).
Proof.
  unfold rstrip. destruct (lstrip_spec (rev s)) as (l & E & Hl & H).
  exists (rev l). rewrite rev_involutive, forallb_rev. repeat split; auto.
  rewrite <- rev_app_distr, <- E, rev_involutive. reflexivity.
Qed.

(** [strip] removes white space, and nothing else, from both ends. *)
Lemma strip_spec (s : str) :
  exists l r, s = l ++ strip s ++ r
              /\ forallb is_space l = true /\ forallb is_space r = true
              /\ trimmed (strip s).
Proof.
  unfold strip.
  destruct (lstrip_spec s) as (l & El & Hl & Hhead).
  destruct (rstrip_spec (lstrip s)) as (r & Er & Hr & Hlast).
  exists l, r. repeat split; auto.
  - rewrite <- Er. exact El.
  - rewrite Er in Hhead. destruct (rstrip (lstrip s)); simpl in *; auto.
Qed.

(** The lookup always returns a string. *)
Lemma get_git_sha_returns (e : env) : exists sha, get_git_sha e = Ok sha.
Proof.
  unfold get_git_sha.
  destruct (git_rev_parse e) as [[|code|code] out|ex]; simpl; eauto.
  destruct (decode out); simpl; eauto.
Qed.

(** C4.  [get_git_sha] never raises.  It returns ["unknown"] when the
    revision command cannot be run, when it exits with a non-zero code and
    when its output is not UTF-8; when the command succeeds it returns the
    decoded output without the white space around it. *)
Theorem get_git_sha_never_raises (e : env) :
  (exists sha, get_git_sha e = Ok sha)
  /\ (forall ex, git_rev_parse e = Failed ex ->
                 get_git_sha e = Ok (txt "unknown"))
  /\ (forall code out, git_rev_parse e = Exited code out -> code <> 0%Z ->
                       get_git_sha e = Ok (txt "unknown"))
  /\ (forall out ex, git_rev_parse e = Exited 0 out ->
                     decode out = Raise ex ->
                     get_git_sha e = Ok (txt "unknown"))
  /\ (forall out s, git_rev_parse e = Exited 0 out -> decode out = Ok s ->
        get_git_sha e = Ok (strip s)
        /\ exists l r, s = l ++ strip s ++ r
                       /\ forallb is_space l = true
                       /\ forallb is_space r = true
                       /\ trimmed (strip s)).
Proof.
  split; [apply get_git_sha_returns|].
  unfold get_git_sha. split; [|split; [|split]].
  - intros ex ->. reflexivity.
  - intros code out -> Hcode. destruct code; [congruence | |]; reflexivity.
  - intros out ex -> E. simpl. rewrite E. reflexivity.
  - intros out s -> E. split; [|apply strip_spec].
    simpl. rewrite E. reflexivity.
Qed.

Lemma get_git_sha_never_raises_witness :
  get_git_sha sample_env
  = Ok (txt "9fceb02d0ae598e95dc970b74767f19372d61af8")
  /\ get_git_sha no_repo_env = Ok (txt "unknown").
Proof.
  split.
  - exact (proj1 (proj2 (proj2 (proj2 (proj2
             (get_git_sha_never_raises sample_env))))
             _ _ eq_refl eq_refl)).
  - refine (proj1 (proj2 (proj2 (get_git_sha_never_raises no_repo_env)))
              128%Z _ eq_refl _).
    discriminate.
Defined.

(** ** Merging dictionaries *)

Section UpdateFacts.
Context {V : Type}.
Implicit Types (d other : dict V) (k : str).

Lemma dict_update_cons d k (v : V) other :
  dict_update d ((k, v) :: other) = dict_update (dict_set k v d) other.
Proof. reflexivity. Qed.

Lemma dict_set_keys_mono d k k' (v : V) :
  In k (dict_keys d) -> In k (dict_keys (dict_set k' v d)).
Proof.
  rewrite dict_keys_set. destruct (str_in k' (dict_keys d)); auto.
  intros H. apply in_or_app. auto.
Qed.

Lemma dict_set_key_in d k (v : V) : In k (dict_keys (dict_set k v d)).
Proof.
  rewrite dict_keys_set. destruct (str_in k (dict_keys d)) eqn:E.
  - apply str_in_In, E.
  - apply in_or_app. right. left. reflexivity.
Qed.

(** Updating removes no key. *)
Lemma dict_update_keys_mono d other k :
  In k (dict_keys d) -> In k (dict_keys (dict_update d other)).
Proof.
  revert d. induction other as [|[k' v'] other IH]; intros d H; [exact H|].
  rewrite dict_update_cons. apply IH, dict_set_keys_mono, H.
Qed.

(** A key that [other] does not have keeps its value. *)
Lemma dict_update_get_other d other k :
  ~ In k (dict_keys other) ->
  dict_get k (dict_update d other) = dict_get k d.
Proof.
  revert d. induction other as [|[k' v'] other IH]; intros d H; [reflexivity|].
  rewrite dict_update_cons, IH by (intros Hk; apply H; right; exact Hk).
  apply dict_get_set_other. intros ->. apply H. left. reflexivity.
Qed.

(** The keys after an update come from one of the two dictionaries. *)
Lemma dict_update_keys_incl d other k :
  In k (dict_keys (dict_update d other)) ->
  In k (dict_keys d) \/ In k (dict_keys other).
Proof.
  revert d. induction other as [|[k' v'] other IH]; intros d H; [auto|].
  rewrite dict_update_cons in H. apply IH in H as [H|H]; [|right; right; exact H].
  rewrite dict_keys_set in H. destruct (str_in k' (dict_keys d)); auto.
  apply in_app_or in H as [H|[<-|[]]]; [auto|]. right. left. reflexivity.
Qed.

End UpdateFacts.

(** ** csv.DictWriter *)

(** The row [writeheader] builds maps every field name to itself. *)
Lemma header_dict_get (hs : list str) (d : dict value) (k : str) :
  (forall v, dict_get k d = Some v -> v = VStr k) ->
  In k hs \/ In k (dict_keys d) ->
  dict_get k (dict_update d (combine hs (map VStr hs))) = Some (VStr k).
Proof.
  revert d. induction hs as [|h hs IH]; intros d Hd Hin; simpl.
  - destruct Hin as [[]|Hin]. destruct (dict_get k d) as [v|] eqn:E.
    + rewrite (Hd v eq_refl). reflexivity.
    + apply dict_get_None in E. contradiction.
  - change (dict_get k (dict_update (dict_set h (VStr h) d)
                                    (combine hs (map VStr hs)))
            = Some (VStr k)).
    destruct (str_eqb k h) eqn:E.
    + apply str_eqb_eq in E. subst h. apply IH.
      * rewrite dict_get_set_same. intros v [= <-]. reflexivity.
      * right. apply dict_set_key_in.
    + apply str_eqb_neq in E. apply IH.
      * rewrite dict_get_set_other by exact E. exact Hd.
      * destruct Hin as [[->|Hin]|Hin]; [congruence | auto |].
        right. apply dict_set_keys_mono, Hin.
Qed.

Lemma no_extras_iff (fieldnames : list str) (rowdict : dict value) :
  existsb (fun k => negb (str_in k fieldnames)) (dict_keys rowdict) = false
  <-> (forall k, In k (dict_keys rowdict) -> In k fieldnames).
Proof.
  split.
  - intros H k Hk. apply str_in_In.
    destruct (str_in k fieldnames) eqn:E; [reflexivity|].
    assert (X : existsb (fun k => negb (str_in k fieldnames))
                        (dict_keys rowdict) = true)
      by (apply existsb_exists; exists k; rewrite E; auto).
    congruence.
  - intros H. destruct (existsb _ _) eqn:E; [|reflexivity].
    apply existsb_exists in E as (k & Hk & E).
    apply H, str_in_In in Hk. rewrite Hk in E. discriminate.
Qed.

(** With every key of the row among the field names, the fields are the
    values of the row under the field names, in their order. *)
Lemma dict_to_list_ok (fieldnames : list str) (rowdict : dict value) :
  (forall k, In k (dict_keys rowdict) -> In k fieldnames) ->
  Csv.dict_to_list fieldnames rowdict = Ok (map (Csv.get rowdict) fieldnames).
Proof.
  intros H. unfold Csv.dict_to_list.
  rewrite (proj2 (no_extras_iff _ _) H). reflexivity.
Qed.

(** A key of the row that is no field name is refused. *)
Lemma dict_to_list_extra (fieldnames : list str) (rowdict : dict value)
      (k : str) :
  In k (dict_keys rowdict) -> ~ In k fieldnames ->
  Csv.dict_to_list fieldnames rowdict = Raise ValueError.
Proof.
  intros Hk Hn. unfold Csv.dict_to_list.
  destruct (existsb _ _) eqn:E; [reflexivity|].
  elim Hn. apply (proj1 (no_extras_iff _ _) E), Hk.
Qed.

(** [writeheader] writes the field names themselves. *)
Lemma writeheader_fields (hs : list str) :
  Csv.dict_to_list hs (dict_update [] (combine hs (map VStr hs)))
  = Ok (map VStr hs).
Proof.
  rewrite dict_to_list_ok.
  - f_equal. apply map_ext_in. intros h Hh. unfold Csv.get.
    rewrite header_dict_get; auto. intros v [=].
  - intros k Hk. apply dict_update_keys_incl in Hk as [[]|Hk].
    apply in_map_iff in Hk as ([h v] & <- & Hk).
    apply in_combine_l in Hk. exact Hk.
Qed.

(** ** The report writer *)

Lemma fs_set_same (path : str) (e : entry) (f : fs) : fs_set path e f path = e.
Proof. unfold fs_set. rewrite str_eqb_refl. reflexivity. Qed.

Lemma fs_set_other (path q : str) (e : entry) (f : fs) :
  q <> path -> fs_set path e f q = f q.
Proof. intros H. unfold fs_set. apply str_eqb_neq in H. rewrite H. reflexivity. Qed.

Lemma touches_only_refl (path : str) (st : state) : touches_only path st st.
Proof. split; auto. Qed.

Lemma touches_only_trans (path : str) (st1 st2 st3 : state) :
  touches_only path st1 st2 -> touches_only path st2 st3 ->
  touches_only path st1 st3.
Proof.
  intros [H1 H2] [H3 H4]. split; [congruence|].
  intros q Hq. rewrite H4, H2; auto.
Qed.

Lemma header_fields (float_str : spec_float -> string) (hs : list str) :
  map (Csv.to_str float_str) (map VStr hs) = hs.
Proof. rewrite map_map. apply map_id. Qed.

(** Writing a row the writer accepts, whose text can be encoded, appends
    its record to the file. *)
Lemma writerow_ok (float_str : spec_float -> string) (path : str)
      (headers : list str) (row : dict value) (st : state)
      (r w : bool) (old : str) :
  disk st path = File r w old ->
  (forall k, In k (dict_keys row) -> In k headers) ->
  encodable (data_row float_str row headers) = true ->
  exists st',
    Csv.writerow float_str path headers row st = (st', Ok tt)
    /\ disk st' path = File r w (old ++ data_row float_str row headers)
    /\ touches_only path st st'.
Proof.
  intros Hd Hk He. unfold Csv.writerow, bind, lift, write.
  rewrite (dict_to_list_ok _ _ Hk), Hd.
  unfold data_row in He. rewrite <- map_map in He. rewrite He.
  eexists. split; [reflexivity|]. cbn [disk stdout]. split; [|split].
  - rewrite fs_set_same. unfold data_row. rewrite map_map. reflexivity.
  - reflexivity.
  - intros q Hq. cbn [disk]. apply fs_set_other, Hq.
Qed.

(** A row whose text cannot be encoded is not written. *)
Lemma writerow_unencodable (float_str : spec_float -> string) (path : str)
      (headers : list str) (row : dict value) (st : state) :
  (forall k, In k (dict_keys row) -> In k headers) ->
  encodable (data_row float_str row headers) = false ->
  Csv.writerow float_str path headers row st
  = (st, Raise UnicodeEncodeError).
Proof.
  intros Hk He. unfold Csv.writerow, bind, lift, write.
  rewrite (dict_to_list_ok _ _ Hk).
  unfold data_row in He. rewrite <- map_map in He. rewrite He. reflexivity.
Qed.

(** A row the writer refuses leaves the file as it is. *)
Lemma writerow_extra (float_str : spec_float -> string) (path : str)
      (headers : list str) (row : dict value) (st : state) (k : str) :
  In k (dict_keys row) -> ~ In k headers ->
  Csv.writerow float_str path headers row st = (st, Raise ValueError).
Proof.
  intros Hk Hn. unfold Csv.writerow, bind, lift.
  rewrite (dict_to_list_extra _ _ k Hk Hn). reflexivity.
Qed.

(** On a path where nothing exists and a file can be created, the writer
    creates the file, writes the header, if it can be encoded, and goes
    on to the data row. *)
Lemma write_csv_row_new (float_str : spec_float -> string) (path : str)
      (row : dict value) (headers : list str) (st : state) :
  disk st path = Absent true ->
  encodable (Csv.record headers) = true ->
  exists st1,
    write_csv_row float_str path row headers st
    = Csv.writerow float_str path headers row st1
    /\ disk st1 path = File true true (Csv.record headers)
    /\ touches_only path st st1.
Proof.
  intros Hd He.
  unfold write_csv_row, bind, except_FileNotFoundError, open_r, open_a, ret.
  rewrite Hd. cbn [negb].
  unfold Csv.writeheader, Csv.writerow at 1, bind, lift, write.
  rewrite writeheader_fields, header_fields, He, Hd. cbn [disk stdout].
  rewrite fs_set_same. cbn [app].
  eexists. split; [reflexivity|]. cbn [disk stdout]. split; [|split].
  - rewrite fs_set_same. reflexivity.
  - reflexivity.
  - intros q Hq. cbn [disk]. rewrite !fs_set_other by exact Hq. reflexivity.
Qed.

(** A header that cannot be encoded stops the writer after it has
    created the file, which stays empty. *)
Lemma write_csv_row_new_unencodable
      (float_str : spec_float -> string) (path : str)
      (row : dict value) (headers : list str) (st : state) :
  disk st path = Absent true ->
  encodable (Csv.record headers) = false ->
  exists st1,
    write_csv_row float_str path row headers st
    = (st1, Raise UnicodeEncodeError)
    /\ disk st1 path = File true true []
    /\ touches_only path st st1.
Proof.
  intros Hd He.
  unfold write_csv_row, bind, except_FileNotFoundError, open_r, open_a, ret.
  rewrite Hd. cbn [negb].
  unfold Csv.writeheader, Csv.writerow at 1, bind, lift, write.
  rewrite writeheader_fields, header_fields, He, Hd.
  eexists. split; [reflexivity|]. cbn [disk stdout]. split; [|split].
  - rewrite fs_set_same. reflexivity.
  - reflexivity.
  - intros q Hq. cbn [disk]. rewrite !fs_set_other by exact Hq. reflexivity.
Qed.

(** On a readable and writable file the writer goes straight to the data
    row. *)
Lemma write_csv_row_existing (float_str : spec_float -> string) (path : str)
      (row : dict value) (headers : list str) (st : state) (old : str) :
  disk st path = File true true old ->
  write_csv_row float_str path row headers st
  = Csv.writerow float_str path headers row st.
Proof.
  intros Hd.
  unfold write_csv_row, bind, except_FileNotFoundError, open_r, open_a, ret.
  rewrite Hd. cbn [negb]. rewrite Hd. reflexivity.
Qed.

(** A path the writer cannot use: the call raises the error of the open
    that fails, and the state is what it was. *)
Lemma write_csv_row_refused (float_str : spec_float -> string) (path : str)
      (row : dict value) (headers : list str) (st : state) :
  match disk st path with
  | Absent true | File true true _ => True
  | Absent false | File _ _ _ =>
      write_csv_row float_str path row headers st
      = (st, Raise PermissionError)
  | Dir =>
      write_csv_row float_str path row headers st
      = (st, Raise IsADirectoryError)
  | NoDirectory =>
      write_csv_row float_str path row headers st
      = (st, Raise FileNotFoundError)
  | NotADirectory =>
      write_csv_row float_str path row headers st
      = (st, Raise NotADirectoryError)
  end.
Proof.
  unfold write_csv_row, bind, except_FileNotFoundError, open_r, open_a, ret.
  destruct (disk st path) as [[|]|[|] [|] old| | |] eqn:Hd;
    try exact I; cbn [negb]; rewrite ?Hd; reflexivity.
Qed.

(** With a key of the row outside the header list the writer never
    returns normally, whatever is at the path. *)
Lemma write_csv_row_extra_fails (float_str : spec_float -> string) (path : str)
      (row : dict value) (headers : list str) (st : state) (k : str) :
  In k (dict_keys row) -> ~ In k headers ->
  snd (write_csv_row float_str path row headers st) <> Ok tt.
Proof.
  intros Hk Hn.
  pose proof (write_csv_row_refused float_str path row headers st) as R.
  destruct (disk st path) as [[|]|[|] [|] old| | |] eqn:Hd;
    try (rewrite R; discriminate).
  - destruct (encodable (Csv.record headers)) eqn:He.
    + destruct (write_csv_row_new float_str path row headers st Hd He)
        as (st1 & -> & _).
      rewrite (writerow_extra _ _ _ _ _ k Hk Hn). discriminate.
    + destruct (write_csv_row_new_unencodable float_str path row headers st
                  Hd He) as (st1 & -> & _).
      discriminate.
  - rewrite (write_csv_row_existing _ _ _ _ _ old Hd).
    rewrite (writerow_extra _ _ _ _ _ k Hk Hn). discriminate.
Qed.

(** C3, the claim as stated fails: a row with a key that is no header
    is not written with the key dropped, the call raises [ValueError];
    the file, new here, is left with its header line only. *)
Lemma extra_key_not_dropped :
  snd (write_csv_row float_str_stub report_path extra_row [txt "date"] fresh)
  = Raise ValueError
  /\ disk (fst (write_csv_row float_str_stub report_path extra_row
                              [txt "date"] fresh)) report_path
     = File true true (txt "date" ++ [13; 10]%N).
Proof. split; vm_compute; reflexivity. Qed.

(** C3, as amended.  A key of the row that is not in the header list
    makes [write_csv_row] raise: the call never returns normally; on a
    readable and writable file the error is [ValueError] and the file is
    unchanged; where the file can be created and the header line can be
    encoded the error is [ValueError] and the new file keeps the header
    line alone.  When all keys of the row are in the header list, the
    data row has one field per header name, the field of a header name
    that the row lacks is empty, and the row, if it can be encoded, is
    appended to a readable and writable file. *)
Theorem write_csv_row_extra_key
        (float_str : spec_float -> string) (path : str) (row : dict value)
        (headers : list str) (st : state) :
  (forall k, In k (dict_keys row) -> ~ In k headers ->
     snd (write_csv_row float_str path row headers st) <> Ok tt
     /\ (disk st path = Absent true ->
         encodable (Csv.record headers) = true ->
         exists st',
           write_csv_row float_str path row headers st
           = (st', Raise ValueError)
           /\ disk st' path = File true true (Csv.record headers)
           /\ touches_only path st st')
     /\ (forall old, disk st path = File true true old ->
           write_csv_row float_str path row headers st
           = (st, Raise ValueError)))
  /\ ((forall k, In k (dict_keys row) -> In k headers) ->
      Csv.dict_to_list headers row = Ok (map (Csv.get row) headers)
      /\ (forall h, dict_get h row = None ->
                    Csv.to_str float_str (Csv.get row h) = [])
      /\ (forall old, disk st path = File true true old ->
            encodable (data_row float_str row headers) = true ->
            exists st',
              write_csv_row float_str path row headers st = (st', Ok tt)
              /\ disk st' path
                 = File true true (old ++ data_row float_str row headers))).
Proof.
  split.
  - intros k Hk Hn. split; [|split].
    + eapply write_csv_row_extra_fails; eauto.
    + intros Hd He.
      destruct (write_csv_row_new float_str path row headers st Hd He)
        as (st1 & -> & Hfile & Hrest).
      exists st1. rewrite (writerow_extra _ _ _ _ _ k Hk Hn). auto.
    + intros old Hd. rewrite (write_csv_row_existing _ _ _ _ _ old Hd).
      apply (writerow_extra _ _ _ _ _ k Hk Hn).
  - intros Hk. split; [|split].
    + apply dict_to_list_ok, Hk.
    + intros h Hh. unfold Csv.get. rewrite Hh. reflexivity.
    + intros old Hd He. rewrite (write_csv_row_existing _ _ _ _ _ old Hd).
      destruct (writerow_ok float_str path headers row st _ _ _ Hd Hk He)
        as (st' & E & Hfile & _).
      exists st'. auto.
Qed.

Lemma write_csv_row_extra_key_witness :
  write_csv_row float_str_stub report_path extra_row
                [txt "date"; txt "git_sha"] started
  = (started, Raise ValueError).
Proof.
  refine (proj2 (proj2 (proj1
            (write_csv_row_extra_key float_str_stub report_path extra_row
               [txt "date"; txt "git_sha"] started)
            (txt "extra") _ _)) _ eq_refl).
  - right. left. reflexivity.
  - intros [H|[H|[]]]; discriminate H.
Defined.




(** ** The orchestration *)

Lemma report_row_keys (results : dict spec_float) :
  dict_keys (map (fun kv => (fst kv, VFloat (snd kv))) results)
  = dict_keys results.
Proof. unfold dict_keys. rewrite map_map. reflexivity. Qed.

(** Once the tests have run and the results are extracted, [main] goes
    on to the writer with the row and the headers it assembles. *)
Lemma main_reaches_writer
      (ua : char -> bool) (float_str : spec_float -> string)
      (dict_str : dict value -> str) (e : env) (st : state)
      (out : str) (results : dict spec_float) (sha : str) :
  run_tests e = Ok out -> parse_results ua out = Ok results ->
  get_git_sha e = Ok sha ->
  main ua float_str dict_str e st
  = (write_csv_row float_str (txt "perf_results.csv")
                   (report_row (clock e) sha results)
                   (report_headers results) ;;;
     print (txt "Performance results recorded: "
            ++ dict_str (report_row (clock e) sha results))) st.
Proof.
  intros H1 H2 H3. unfold main, lift.
  unfold bind at 1. rewrite H1. unfold bind at 1. rewrite H2.
  unfold bind at 1. rewrite H3. reflexivity.
Qed.

(** The writer finds every key of the row of [main] among the
    headers. *)
Lemma report_row_keys_in_headers (now sha : str) (results : dict spec_float)
      (k : str) :
  In k (dict_keys (report_row now sha results)) ->
  In k (report_headers results).
Proof.
  unfold report_row, report_headers. intros H.
  apply dict_update_keys_incl in H. rewrite report_row_keys in H.
  apply in_or_app. simpl in *. tauto.
Qed.

(** A key with a period in it is neither of the two fixed keys. *)
Lemma dotted_key_not_fixed (c t : str) :
  c ++ txt "." ++ t <> txt "date" /\ c ++ txt "." ++ t <> txt "git_sha".
Proof.
  assert (Hin : In 46%N (c ++ txt "." ++ t))
    by (apply in_or_app; right; left; reflexivity).
  split; intros E; rewrite E in Hin; simpl in Hin;
    repeat (destruct Hin as [Hin|Hin]; [discriminate Hin|]); exact Hin.
Qed.

(** The keys of the extractor have the form [<word>.<word>]. *)
Lemma parse_results_key_form (ua : char -> bool) (text : str)
      (d : dict spec_float) (k : str) :
  parse_results ua text = Ok d -> In k (dict_keys d) ->
  exists c t, k = c ++ txt "." ++ t /\ word ua c /\ word ua t.
Proof.
  intros H Hk.
  destruct (parse_results_key_of_match ua text d k H Hk) as (m & Hm & ->).
  destruct (regex_match_shape ua text m Hm) as (c & t & a & -> & Hc & Ht & _).
  exists c, t. auto.
Qed.

(** C6.  In a run that gets to assemble its row, the row has the keys
    [date] and [git_sha], and the header list handed to the writer is
    [["date"; "git_sha"]] followed by the keys of the matches of the
    captured text in the order they are first seen. *)
Theorem main_row_and_headers
        (ua : char -> bool) (float_str : spec_float -> string)
        (dict_str : dict value -> str) (e : env) (st : state)
        (out : str) (results : dict spec_float) :
  run_tests e = Ok out -> parse_results ua out = Ok results ->
  exists sha row headers,
    get_git_sha e = Ok sha
    /\ row = report_row (clock e) sha results
    /\ main ua float_str dict_str e st
       = (write_csv_row float_str (txt "perf_results.csv") row headers ;;;
          print (txt "Performance results recorded: " ++ dict_str row)) st
    /\ In (txt "date") (dict_keys row)
    /\ In (txt "git_sha") (dict_keys row)
    /\ headers = [txt "date"; txt "git_sha"]
                 ++ first_seen [] (map match_key (Re.finditer (regex ua) out)).
Proof.
  intros H1 H2.
  destruct (get_git_sha_returns e) as [sha H3].
  exists sha, (report_row (clock e) sha results), (report_headers results).
  split; [exact H3|]. split; [reflexivity|]. split; [|split; [|split]].
  - apply (main_reaches_writer ua float_str dict_str e st out); assumption.
  - apply dict_update_keys_mono. left. reflexivity.
  - apply dict_update_keys_mono. right. left. reflexivity.
  - unfold report_headers. f_equal.
    apply (parse_loop_keys _ _ _ H2).
Qed.

Lemma main_row_and_headers_witness :
  exists row,
    main ascii_only float_str_stub dict_str_stub sample_env fresh
    = (write_csv_row float_str_stub (txt "perf_results.csv") row
         [txt "date"; txt "git_sha";
          txt "Measurements.testInsert"; txt "Measurements.testDelete"] ;;;
       print (txt "Performance results recorded: " ++ dict_str_stub row))
        fresh
    /\ In (txt "date") (dict_keys row)
    /\ In (txt "git_sha") (dict_keys row).
Proof.
  destruct (parse_results ascii_only two_runs_text) as [results|ex] eqn:E;
    [|vm_compute in E; discriminate].
  destruct (main_row_and_headers ascii_only float_str_stub dict_str_stub
              sample_env fresh two_runs_text results eq_refl E)
    as (sha & row & headers & _ & _ & Hmain & Hdate & Hsha & ->).
  exists row. split; [exact Hmain|]. split; assumption.
Defined.

(** C7.  When running the tests raises, or extracting the results
    raises, [main] raises the same exception and the state, the report
    file included, is what it was: no row is written, nothing is
    printed. *)
Theorem main_failure_writes_nothing
        (ua : char -> bool) (float_str : spec_float -> string)
        (dict_str : dict value -> str) (e : env) (st : state) :
  (forall ex, run_tests e = Raise ex ->
              main ua float_str dict_str e st = (st, Raise ex))
  /\ (forall out ex, run_tests e = Ok out ->
                     parse_results ua out = Raise ex ->
                     main ua float_str dict_str e st = (st, Raise ex)).
Proof.
  split.
  - intros ex H. unfold main, lift, bind. rewrite H. reflexivity.
  - intros out ex H1 H2. unfold main, lift.
    unfold bind at 1. rewrite H1. unfold bind at 1. rewrite H2. reflexivity.
Qed.

Lemma main_failure_writes_nothing_witness :
  main ascii_only float_str_stub dict_str_stub no_xcode_env started
  = (started, Raise FileNotFoundError)
  /\ main ascii_only float_str_stub dict_str_stub malformed_env started
     = (started, Raise ValueError).
Proof.
  split.
  - exact (proj1 (main_failure_writes_nothing ascii_only float_str_stub
                    dict_str_stub no_xcode_env started)
                 FileNotFoundError eq_refl).
  - refine (proj2 (main_failure_writes_nothing ascii_only float_str_stub
                     dict_str_stub malformed_env started)
              (report_line (txt "TendrilTreeTests") (txt "Measurements")
                           (txt "testInsert") (txt "1.2.3"))
              ValueError eq_refl _).
    vm_compute. reflexivity.
Defined.

(** C10.  Every key of the mapping [parse_results] returns is two words
    joined by a period, so it is neither ["date"] nor ["git_sha"], and
    the row [main] merges the mapping into keeps the timestamp under
    ["date"] and the revision under ["git_sha"]. *)
Theorem measurement_keys_qualified
        (ua : char -> bool) (text : str) (d : dict spec_float) :
  parse_results ua text = Ok d ->
  (forall k, In k (dict_keys d) ->
     (exists c t, k = c ++ txt "." ++ t /\ word ua c /\ word ua t)
     /\ k <> txt "date" /\ k <> txt "git_sha")
  /\ (forall now sha,
        dict_get (txt "date") (report_row now sha d) = Some (VStr now)
        /\ dict_get (txt "git_sha") (report_row now sha d)
           = Some (VStr sha)).
Proof.
  intros H.
  assert (Hform : forall k, In k (dict_keys d) ->
            (exists c t, k = c ++ txt "." ++ t /\ word ua c /\ word ua t)
            /\ k <> txt "date" /\ k <> txt "git_sha").
  { intros k Hk.
    destruct (parse_results_key_form ua text d k H Hk) as (c & t & -> & Hc & Ht).
    split; [exists c, t; auto | apply dotted_key_not_fixed]. }
  split; [exact Hform|].
  intros now sha. unfold report_row.
  split; (rewrite dict_update_get_other; [reflexivity|]);
    rewrite report_row_keys; intros Hk; apply Hform in Hk;
    destruct Hk as (_ & H1 & H2); congruence.
Qed.

Lemma measurement_keys_qualified_witness :
  exists d,
    parse_results ascii_only two_runs_text = Ok d
    /\ dict_keys d
       = [txt "Measurements.testInsert"; txt "Measurements.testDelete"]
    /\ dict_get (txt "date")
                (report_row (txt "2024-05-01T12:00:00.000000")
                            (txt "unknown") d)
       = Some (VStr (txt "2024-05-01T12:00:00.000000")).
Proof.
  destruct (parse_results ascii_only two_runs_text) as [d|ex] eqn:E;
    [|vm_compute in E; discriminate].
  exists d. split; [reflexivity|]. split.
  - vm_compute in E. injection E as <-. reflexivity.
  - exact (proj1 (proj2 (measurement_keys_qualified ascii_only
                           two_runs_text d E) _ _)).
Defined.

(** ** What the codec of the files encodes *)

Lemma encodable_app (a b : str) :
  encodable (a ++ b) = encodable a && encodable b.
Proof. apply forallb_app. Qed.

Lemma below_surrogates (c : char) :
  (c < 55296)%N -> is_surrogate c = false.
Proof.
  intros H. unfold is_surrogate, between.
  apply andb_false_iff. left. apply N.leb_gt. exact H.
Qed.

Lemma above_surrogates (c : char) :
  (57343 < c)%N -> is_surrogate c = false.
Proof.
  intros H. unfold is_surrogate, between.
  apply andb_false_iff. right. apply N.leb_gt. exact H.
Qed.

(** The text of a literal is encoded: its characters are below 256. *)
Lemma encodable_txt (s : string) : encodable (txt s) = true.
Proof.
  unfold txt, encodable. rewrite forallb_forall. intros c Hc.
  apply in_map_iff in Hc as (a & <- & _).
  rewrite below_surrogates; [reflexivity|].
  pose proof (N_ascii_bounded a). lia.
Qed.

(** No surrogate is a word character. *)
Lemma word_char_encodable (ua : char -> bool) (c : char) :
  is_word ua c = true -> is_surrogate c = false.
Proof.
  intros H. destruct (is_surrogate c) eqn:E; [|reflexivity].
  unfold is_word in H. rewrite E in H. cbn [negb] in H.
  rewrite andb_false_r, orb_false_r in H.
  unfold is_surrogate, between in E.
  apply andb_true_iff in E as [E _]. apply N.leb_le in E.
  unfold between in H.
  repeat (apply orb_true_iff in H as [H|H]);
    try (apply andb_true_iff in H as [_ H]; apply N.leb_le in H; lia).
  apply N.eqb_eq in H. lia.
Qed.

Lemma word_encodable (ua : char -> bool) (w : str) :
  forallb (is_word ua) w = true -> encodable w = true.
Proof.
  unfold encodable. rewrite !forallb_forall. intros H c Hc.
  rewrite (word_char_encodable ua c (H c Hc)). reflexivity.
Qed.

(** Strict UTF-8 decoding gives no surrogate. *)
Lemma utf8_encodable_upto (n : nat) (bs : list N) (s : str) :
  (List.length bs <= n)%nat -> utf8 bs = Some s -> encodable s = true.
Proof.
  revert bs s. induction n as [|n IH]; intros bs s Hlen H.
  - destruct bs; [injection H as <-; reflexivity | simpl in Hlen; lia].
  - destruct bs as [|b0 r0]; [injection H as <-; reflexivity|].
    cbn [utf8] in H. cbn [List.length] in Hlen.
    destruct (N.ltb b0 128) eqn:E0.
    { destruct (utf8 r0) as [s'|] eqn:U; [|discriminate].
      injection H as <-. cbn [encodable forallb].
      apply N.ltb_lt in E0.
      rewrite below_surrogates by lia.
      apply (IH r0 s'); [lia | exact U]. }
    destruct (between 194 223 b0) eqn:E1.
    { destruct r0 as [|b1 r1]; [discriminate|].
      destruct (is_cont b1) eqn:C1; [|discriminate].
      destruct (utf8 r1) as [s'|] eqn:U; [|discriminate].
      injection H as <-. cbn [encodable forallb].
      unfold between in E1. unfold is_cont, between in C1.
      apply andb_true_iff in E1 as [_ E1]. apply N.leb_le in E1.
      apply andb_true_iff in C1 as [_ C1]. apply N.leb_le in C1.
      rewrite below_surrogates by lia.
      cbn [List.length] in Hlen. apply (IH r1 s'); [lia | exact U]. }
    destruct (between 224 239 b0) eqn:E2.
    { destruct r0 as [|b1 [|b2 r2]]; try discriminate.
      match type of H with
      | (if ?c then _ else _) = _ => destruct c eqn:C; [|discriminate]
      end.
      destruct (utf8 r2) as [s'|] eqn:U; [|discriminate].
      injection H as <-. cbn [encodable forallb].
      apply andb_true_iff in C as [_ C]. unfold is_surrogate. rewrite C.
      cbn [List.length] in Hlen. apply (IH r2 s'); [lia | exact U]. }
    destruct (between 240 244 b0) eqn:E3; [|discriminate].
    destruct r0 as [|b1 [|b2 [|b3 r3]]]; try discriminate.
    match type of H with
    | (if ?c then _ else _) = _ => destruct c eqn:C; [|discriminate]
    end.
    destruct (utf8 r3) as [s'|] eqn:U; [|discriminate].
    injection H as <-. cbn [encodable forallb].
    apply andb_true_iff in C as [_ C]. unfold between in C.
    apply andb_true_iff in C as [C _]. apply N.leb_le in C.
    rewrite above_surrogates by lia.
    cbn [List.length] in Hlen. apply (IH r3 s'); [lia | exact U].
Qed.

Lemma decode_encodable (b : bytes) (s : str) :
  decode b = Ok s -> encodable s = true.
Proof.
  unfold decode. destruct (utf8 (map Byte.to_N b)) as [s'|] eqn:U;
    [|discriminate].
  intros [= <-]. eapply utf8_encodable_upto; [apply le_n | exact U].
Qed.

(** The revision [get_git_sha] returns can be written to the report. *)
Lemma get_git_sha_encodable (e : env) (sha : str) :
  get_git_sha e = Ok sha -> encodable sha = true.
Proof.
  unfold get_git_sha.
  destruct (check_output (git_rev_parse e)) as [out|ex];
    cbn [rbind try_except]; [|intros [= <-]; reflexivity].
  destruct (decode out) as [s|ex] eqn:D;
    cbn [rbind try_except]; [|intros [= <-]; reflexivity].
  intros [= <-]. apply decode_encodable in D.
  destruct (strip_spec s) as (l & r & E & _).
  rewrite E, !encodable_app in D.
  apply andb_true_iff in D as [_ D]. apply andb_true_iff in D as [D _].
  exact D.
Qed.

(** A record of fields that can be encoded can be encoded. *)
Lemma quote_encodable (field : str) :
  encodable field = true -> encodable (Csv.quote field) = true.
Proof.
  intros H. unfold Csv.quote. destruct (existsb Csv.special field); [|exact H].
  change (encodable (flat_map (fun c => if N.eqb c 34 then [c; c] else [c])
                              field ++ [34%N]) = true).
  rewrite encodable_app, andb_true_r.
  induction field as [|c field IH]; [reflexivity|].
  cbn [encodable forallb] in H. apply andb_true_iff in H as [Hc H].
  cbn [flat_map]. rewrite encodable_app, (IH H), andb_true_r.
  destruct (N.eqb c 34); cbn [encodable forallb]; rewrite Hc; reflexivity.
Qed.

Lemma join_encodable (fields : list str) :
  Forall (fun f => encodable f = true) fields ->
  encodable (Csv.join fields) = true.
Proof.
  induction 1 as [|f fields Hf Hfs IH]; [reflexivity|].
  cbn [Csv.join]. destruct fields as [|g fields]; [exact Hf|].
  rewrite encodable_app, Hf.
  change (encodable (44%N :: Csv.join (g :: fields)))
    with (negb (is_surrogate 44%N) && encodable (Csv.join (g :: fields))).
  rewrite IH. reflexivity.
Qed.

Lemma record_encodable (fields : list str) :
  Forall (fun f => encodable f = true) fields ->
  encodable (Csv.record fields) = true.
Proof.
  intros H.
  assert (E : encodable (Csv.join (map Csv.quote fields) ++ [13; 10]%N)
              = true).
  { rewrite encodable_app, join_encodable; [reflexivity|].
    apply Forall_map. eapply Forall_impl; [|exact H].
    intros f. apply quote_encodable. }
  unfold Csv.record. destruct fields as [|[|c f] [|g fields]];
    try exact E; reflexivity.
Qed.

Lemma dict_set_Forall {V} (P : V -> Prop) (k : str) (v : V) (d : dict V) :
  P v -> Forall (fun kv => P (snd kv)) d ->
  Forall (fun kv => P (snd kv)) (dict_set k v d).
Proof.
  intros Hv H. induction H as [|[k' v'] d Hkv Hd IH]; simpl.
  - repeat constructor. exact Hv.
  - destruct (str_eqb k k'); constructor; simpl; assumption.
Qed.

Lemma dict_get_Forall {V} (P : V -> Prop) (k : str) (v : V) (d : dict V) :
  Forall (fun kv => P (snd kv)) d -> dict_get k d = Some v -> P v.
Proof.
  intros H. induction H as [|[k' v'] d Hkv _ IH]; simpl; [discriminate|].
  destruct (str_eqb k k'); [intros [= <-]; exact Hkv | exact IH].
Qed.

Lemma dict_update_Forall {V} (P : V -> Prop) (d other : dict V) :
  Forall (fun kv => P (snd kv)) d -> Forall (fun kv => P (snd kv)) other ->
  Forall (fun kv => P (snd kv)) (dict_update d other).
Proof.
  intros Hd Ho. revert d Hd.
  induction Ho as [|[k v] other Hkv _ IH]; intros d Hd; [exact Hd|].
  rewrite dict_update_cons. apply IH, dict_set_Forall; assumption.
Qed.

(** The data row of a row whose values can be encoded can be encoded. *)
Lemma data_row_encodable (float_str : spec_float -> string)
      (row : dict value) (headers : list str) :
  Forall (fun kv => encodable (Csv.to_str float_str (snd kv)) = true) row ->
  encodable (data_row float_str row headers) = true.
Proof.
  intros H. unfold data_row. apply record_encodable.
  apply Forall_forall. intros f Hf.
  apply in_map_iff in Hf as (h & <- & _). unfold Csv.get.
  destruct (dict_get h row) as [v|] eqn:G; [|reflexivity].
  apply (dict_get_Forall
           (fun v => encodable (Csv.to_str float_str v) = true) h v row H G).
Qed.

(** The values of the row of [main] can be encoded: a timestamp, a
    revision and formatted floats. *)
Lemma report_row_encodable (float_str : spec_float -> string)
      (now sha : str) (results : dict spec_float) :
  encodable now = true -> encodable sha = true ->
  Forall (fun kv => encodable (Csv.to_str float_str (snd kv)) = true)
         (report_row now sha results).
Proof.
  intros Hnow Hsha. unfold report_row.
  apply (dict_update_Forall
           (fun v => encodable (Csv.to_str float_str v) = true)).
  - repeat constructor; assumption.
  - apply Forall_map, Forall_forall. intros kv _. apply encodable_txt.
Qed.

(** The header line of [main] can be encoded. *)
Lemma report_headers_encodable (ua : char -> bool) (text : str)
      (results : dict spec_float) :
  parse_results ua text = Ok results ->
  encodable (Csv.record (report_headers results)) = true.
Proof.
  intros H. apply record_encodable. unfold report_headers.
  apply Forall_app. split.
  - repeat constructor; apply encodable_txt.
  - apply Forall_forall. intros k Hk.
    destruct (parse_results_key_form ua text results k H Hk)
      as (c & t & -> & [_ Hc] & [_ Ht]).
    rewrite !encodable_app, (word_encodable ua c Hc),
      (word_encodable ua t Ht), encodable_txt. reflexivity.
Qed.

(** ** End to end *)

(** A run whose tests run and whose results are extracted writes its row
    and prints it: into a new file after the header line, at the end of
    an existing readable and writable file otherwise. *)
Lemma main_writes_report
      (ua : char -> bool) (float_str : spec_float -> string)
      (dict_str : dict value -> str) (e : env) (st : state)
      (out : str) (results : dict spec_float) (sha : str) :
  run_tests e = Ok out -> parse_results ua out = Ok results ->
  get_git_sha e = Ok sha ->
  (disk st report_path = Absent true ->
   exists st',
     main ua float_str dict_str e st = (st', Ok tt)
     /\ disk st' report_path
        = File true true
            (Csv.record (report_headers results)
             ++ data_row float_str (report_row (clock e) sha results)
                         (report_headers results))
     /\ stdout st'
        = stdout st ++ [txt "Performance results recorded: "
                        ++ dict_str (report_row (clock e) sha results)])
  /\ (forall old, disk st report_path = File true true old ->
      exists st',
        main ua float_str dict_str e st = (st', Ok tt)
        /\ disk st' report_path
           = File true true
               (old ++ data_row float_str (report_row (clock e) sha results)
                                (report_headers results))
        /\ stdout st'
           = stdout st ++ [txt "Performance results recorded: "
                           ++ dict_str (report_row (clock e) sha results)]).
Proof.
  intros H1 H2 H3.
  rewrite (main_reaches_writer ua float_str dict_str e st out results sha H1 H2 H3).
  change (txt "perf_results.csv") with report_path.
  pose proof (report_row_keys_in_headers (clock e) sha results) as Hk.
  pose proof (report_headers_encodable ua out results H2) as Hh.
  assert (He : encodable (data_row float_str
                            (report_row (clock e) sha results)
                            (report_headers results)) = true).
  { apply data_row_encodable, report_row_encodable.
    - apply encodable_txt.
    - apply (get_git_sha_encodable e sha H3). }
  split.
  - intros Hd. unfold bind.
    destruct (write_csv_row_new float_str report_path
                (report_row (clock e) sha results) (report_headers results)
                st Hd Hh) as (st1 & -> & Hfile & Hrest).
    destruct (writerow_ok float_str report_path (report_headers results)
                (report_row (clock e) sha results) st1 _ _ _ Hfile Hk He)
      as (st2 & -> & Hfile2 & Hrest2).
    eexists. split; [reflexivity|]. cbn [disk stdout print].
    split; [exact Hfile2|].
    destruct Hrest as [<- _]. destruct Hrest2 as [<- _]. reflexivity.
  - intros old Hd. unfold bind.
    rewrite (write_csv_row_existing float_str report_path _ _ st old Hd).
    destruct (writerow_ok float_str report_path (report_headers results)
                (report_row (clock e) sha results) st _ _ _ Hd Hk He)
      as (st2 & -> & Hfile2 & Hrest2).
    eexists. split; [reflexivity|]. cbn [disk stdout print].
    split; [exact Hfile2|].
    destruct Hrest2 as [<- _]. reflexivity.
Qed.

(** Scenarios B and C of the specification: no measurement line in the
    output and a failing revision lookup.  The row holds the date and
    ["unknown"], under the header [date,git_sha]. *)
Example scenario_B_C :
  disk (fst (main ascii_only float_str_stub dict_str_stub no_repo_env fresh))
       report_path
  = File true true (txt "date,git_sha" ++ [13; 10]%N
                    ++ txt "2024-05-01T12:00:00.000000,unknown"
                    ++ [13; 10]%N).
Proof. vm_compute. reflexivity. Qed.

(** The value [float] gives for ["0.003"] is the binary64 nearest to
    3/1000: it is off by no more than half a unit in the last place,
    [2^-62]. *)
Example float_0_003_nearest :
  py_float (txt "0.003") = Ok f0_003
  /\ (2 * Z.abs (1000 * 6917529027641082 - 3 * 2 ^ 61) <= 1000)%Z.
Proof. split; [vm_compute; reflexivity | vm_compute; discriminate]. Qed.

(* ================================================================= *)
(** * Further properties of the script *)

(** ** Keys of the extractor *)

Lemma first_seen_NoDup (seen keys : list str) :
  NoDup seen -> NoDup (seen ++ first_seen seen keys).
Proof.
  revert seen. induction keys as [|k keys IH]; intros seen H; simpl.
  - rewrite app_nil_r. exact H.
  - destruct (str_in k seen) eqn:E; [apply IH, H|].
    change (seen ++ k :: first_seen (seen ++ [k]) keys)
      with (seen ++ [k] ++ first_seen (seen ++ [k]) keys).
    rewrite app_assoc. apply IH.
    apply NoDup_app; [exact H | repeat constructor; intros [] |].
    intros x Hx [<-|[]]. apply str_in_not_In in E. contradiction.
Qed.

Lemma first_seen_complete (seen keys : list str) (k : str) :
  In k keys -> In k seen \/ In k (first_seen seen keys).
Proof.
  revert seen. induction keys as [|x keys IH]; intros seen; simpl; [tauto|].
  intros [->|H].
  - destruct (str_in k seen) eqn:E; [left; apply str_in_In, E|].
    right. left. reflexivity.
  - destruct (str_in x seen) eqn:E; [apply IH, H|].
    destruct (IH (seen ++ [x]) H) as [Hs|Hf].
    + apply in_app_or in Hs as [Hs|[<-|[]]]; [auto|]. right. left. reflexivity.
    + right. right. exact Hf.
Qed.

(** The keys of the mapping of [parse_results] are pairwise distinct. *)
Lemma parse_results_keys_NoDup (ua : char -> bool) (text : str)
      (d : dict spec_float) :
  parse_results ua text = Ok d -> NoDup (dict_keys d).
Proof.
  intros H. rewrite (parse_loop_keys _ _ _ H).
  apply (first_seen_NoDup []). constructor.
Qed.

(** The values of the fixed keys survive the merge of the results. *)
Lemma report_row_fixed (ua : char -> bool) (text : str)
      (d : dict spec_float) (now sha : str) :
  parse_results ua text = Ok d ->
  dict_get (txt "date") (report_row now sha d) = Some (VStr now)
  /\ dict_get (txt "git_sha") (report_row now sha d) = Some (VStr sha).
Proof.
  intros H. unfold report_row.
  split; (rewrite dict_update_get_other; [reflexivity|]);
    rewrite report_row_keys; intros Hk;
    destruct (parse_results_key_form ua text d _ H Hk) as (c & t & E & _);
    destruct (dotted_key_not_fixed c t) as [H1 H2];
    first [apply H1; symmetry; exact E | apply H2; symmetry; exact E].
Qed.

(** X1.  The mapping [parse_results] returns has no key twice, and its
    keys are exactly the keys of the matches of the pattern in the
    text: every match is reported, and nothing else is. *)
Theorem parse_results_keys_exact
        (ua : char -> bool) (text : str) (d : dict spec_float) :
  parse_results ua text = Ok d ->
  NoDup (dict_keys d)
  /\ (forall k, In k (dict_keys d)
                <-> exists m, In m (Re.finditer (regex ua) text)
                              /\ match_key m = k).
Proof.
  intros H. split; [eapply parse_results_keys_NoDup, H|].
  intros k. split.
  - intros Hk.
    destruct (parse_results_key_of_match ua text d k H Hk) as (m & Hm & ->).
    exists m. auto.
  - intros (m & Hm & <-). unfold parse_results in H.
    rewrite (parse_loop_keys _ _ _ H). simpl.
    destruct (first_seen_complete [] (map match_key (Re.finditer (regex ua) text))
                (match_key m)) as [[]|Hf]; [|exact Hf].
    apply in_map, Hm.
Qed.

Lemma parse_results_keys_exact_witness :
  exists d,
    parse_results ascii_only two_runs_text = Ok d
    /\ NoDup (dict_keys d)
    /\ In (txt "Measurements.testDelete") (dict_keys d).
Proof.
  destruct (parse_results ascii_only two_runs_text) as [d|ex] eqn:E;
    [|vm_compute in E; discriminate].
  destruct (parse_results_keys_exact ascii_only two_runs_text d E)
    as [Hnd Hkeys].
  exists d. split; [reflexivity|]. split; [exact Hnd|].
  apply Hkeys.
  exists [txt "Measurements"; txt "testDelete"; txt "0.1"].
  split; [vm_compute; right; left; reflexivity | reflexivity].
Defined.

(** ** The row and the headers of main *)

(** Merging a dictionary whose keys are distinct and new appends its
    keys in their order. *)
Lemma dict_update_keys_fresh {V} (d other : dict V) :
  NoDup (dict_keys other) ->
  (forall k, In k (dict_keys other) -> ~ In k (dict_keys d)) ->
  dict_keys (dict_update d other) = dict_keys d ++ dict_keys other.
Proof.
  revert d. induction other as [|[k v] other IH]; intros d Hnd Hnew.
  - simpl. rewrite app_nil_r. reflexivity.
  - rewrite dict_update_cons. simpl in Hnd. inversion Hnd as [|? ? Hk Hnd']; subst.
    rewrite IH.
    + rewrite dict_keys_set.
      destruct (str_in k (dict_keys d)) eqn:E.
      * apply str_in_In in E. elim (Hnew k); [left; reflexivity | exact E].
      * rewrite <- app_assoc. reflexivity.
    + exact Hnd'.
    + intros k' Hk' Hin. apply dict_update_keys_incl
        with (d := d) (other := [(k, v)]) in Hin.
      destruct Hin as [Hin|[<-|[]]].
      * apply (Hnew k'); [right; exact Hk' | exact Hin].
      * contradiction.
Qed.

(** X2.  The keys of the row [main] assembles are the headers it hands
    to the writer, in the same order: every header has a value in the
    row, so no field of the row is filled in by the writer. *)
Theorem main_row_keys_are_headers
        (ua : char -> bool) (text : str) (results : dict spec_float)
        (now sha : str) :
  parse_results ua text = Ok results ->
  dict_keys (report_row now sha results) = report_headers results
  /\ (forall h, In h (report_headers results) ->
                exists v, dict_get h (report_row now sha results) = Some v).
Proof.
  intros H.
  assert (E : dict_keys (report_row now sha results) = report_headers results).
  { unfold report_row, report_headers.
    rewrite dict_update_keys_fresh; rewrite report_row_keys.
    - reflexivity.
    - eapply parse_results_keys_NoDup, H.
    - intros k Hk Hin.
      destruct (parse_results_key_form ua text results k H Hk)
        as (c & t & -> & _).
      destruct (dotted_key_not_fixed c t) as [H1 H2].
      destruct Hin as [Hin|[Hin|[]]];
        [apply H1 | apply H2]; symmetry; exact Hin. }
  split; [exact E|].
  intros h Hh. rewrite <- E in Hh.
  destruct (dict_get h (report_row now sha results)) as [v|] eqn:G; [eauto|].
  apply dict_get_None in G. contradiction.
Qed.

Lemma main_row_keys_are_headers_witness :
  exists d,
    parse_results ascii_only two_runs_text = Ok d
    /\ dict_keys (report_row (txt "2024-05-01T12:00:00") (txt "unknown") d)
       = [txt "date"; txt "git_sha";
          txt "Measurements.testInsert"; txt "Measurements.testDelete"].
Proof.
  destruct (parse_results ascii_only two_runs_text) as [d|ex] eqn:E;
    [|vm_compute in E; discriminate].
  exists d. split; [reflexivity|].
  rewrite (proj1 (main_row_keys_are_headers ascii_only two_runs_text d
                    (txt "2024-05-01T12:00:00") (txt "unknown") E)).
  vm_compute in E. injection E as <-. reflexivity.
Defined.

(** ** The report writer: what it leaves alone *)

Lemma writerow_frame (float_str : spec_float -> string) (path : str)
      (headers : list str) (row : dict value) (st : state) :
  touches_only path st (fst (Csv.writerow float_str path headers row st)).
Proof.
  unfold Csv.writerow, bind, lift.
  destruct (Csv.dict_to_list headers row) as [fields|ex];
    [|apply touches_only_refl].
  unfold write.
  destruct (encodable (Csv.record (map (Csv.to_str float_str) fields)));
    [|apply touches_only_refl].
  destruct (disk st path); try apply touches_only_refl.
  split; [reflexivity|]. intros q Hq. cbn [fst disk]. apply fs_set_other, Hq.
Qed.


Lemma write_csv_row_frame (float_str : spec_float -> string) (path : str)
      (row : dict value) (headers : list str) (st : state) :
  touches_only path st (fst (write_csv_row float_str path row headers st)).
Proof.
  pose proof (write_csv_row_refused float_str path row headers st) as R.
  destruct (disk st path) as [[|]|[|] [|] old| | |] eqn:Hd;
    try (rewrite R; apply touches_only_refl).
  - destruct (encodable (Csv.record headers)) eqn:He.
    + destruct (write_csv_row_new float_str path row headers st Hd He)
        as (st1 & -> & _ & Hrest).
      eapply touches_only_trans; [exact Hrest | apply writerow_frame].
    + destruct (write_csv_row_new_unencodable float_str path row headers st
                  Hd He) as (st1 & -> & _ & Hrest).
      exact Hrest.
  - rewrite (write_csv_row_existing _ _ _ _ _ old Hd). apply writerow_frame.
Qed.

(** X3.  Whether it returns or raises, [write_csv_row] changes nothing
    but the file at its path: every other file is as it was, and nothing
    is printed. *)
Theorem write_csv_row_touches_only_its_file
        (float_str : spec_float -> string) (path : str) (row : dict value)
        (headers : list str) (st : state) :
  stdout (fst (write_csv_row float_str path row headers st)) = stdout st
  /\ forall q, q <> path ->
       disk (fst (write_csv_row float_str path row headers st)) q
       = disk st q.
Proof.
  destruct (write_csv_row_frame float_str path row headers st)
    as [Hout Hdisk].
  split; [exact Hout | exact Hdisk].
Qed.

Lemma write_csv_row_touches_only_its_file_witness :
  disk (fst (write_csv_row float_str_stub report_path plain_row
                           [txt "date"; txt "git_sha"] started))
       (txt "other.csv")
  = Absent true.
Proof.
  refine (proj2 (write_csv_row_touches_only_its_file float_str_stub
                   report_path plain_row [txt "date"; txt "git_sha"] started)
                (txt "other.csv") _).
  discriminate.
Defined.

(** X4.  [write_csv_row] only ever appends: whatever the outcome of the
    call, a file that was at the path is still there with its
    permissions, and its text is the text it had followed by nothing or
    by the data row. *)
Theorem write_csv_row_append_only
        (float_str : spec_float -> string) (path : str) (row : dict value)
        (headers : list str) (st : state) (r w : bool) (old : str) :
  disk st path = File r w old ->
  exists more,
    disk (fst (write_csv_row float_str path row headers st)) path
    = File r w (old ++ more)
    /\ (more = [] \/ more = data_row float_str row headers).
Proof.
  intros Hd.
  pose proof (write_csv_row_refused float_str path row headers st) as R.
  rewrite Hd in R.
  destruct r, w; try (rewrite R; exists []; rewrite app_nil_r; auto).
  rewrite (write_csv_row_existing _ _ _ _ _ old Hd).
  unfold Csv.writerow, bind, lift.
  destruct (Csv.dict_to_list headers row) as [fields|ex] eqn:E;
    [|exists []; rewrite app_nil_r; auto].
  unfold write.
  destruct (encodable (Csv.record (map (Csv.to_str float_str) fields)));
    [|exists []; rewrite app_nil_r; auto].
  exists (data_row float_str row headers). split; [|auto].
  rewrite Hd. cbn [fst disk]. rewrite fs_set_same.
  unfold Csv.dict_to_list in E.
  destruct (existsb _ (dict_keys row)); [discriminate|].
  injection E as <-. unfold data_row. rewrite map_map. reflexivity.
Qed.

Lemma write_csv_row_append_only_witness :
  exists more,
    disk (fst (write_csv_row float_str_stub report_path extra_row
                             [txt "date"] read_only)) report_path
    = File true false (txt "date,git_sha" ++ more).
Proof.
  destruct (write_csv_row_append_only float_str_stub report_path extra_row
              [txt "date"] read_only true false (txt "date,git_sha") eq_refl)
    as (more & H & _).
  exists more. exact H.
Defined.



(** X6.  Two calls in a row on a path where nothing exists, with rows
    and a header line the codec of the file encodes: the header is
    written once, from the header list of the first call, and the two
    data rows follow in the order of the calls, the second one under
    its own header list even when that differs from the first. *)
Theorem write_csv_row_twice
        (float_str : spec_float -> string) (path : str)
        (row1 row2 : dict value) (headers1 headers2 : list str)
        (st : state) :
  (forall k, In k (dict_keys row1) -> In k headers1) ->
  (forall k, In k (dict_keys row2) -> In k headers2) ->
  encodable (Csv.record headers1) = true ->
  encodable (data_row float_str row1 headers1) = true ->
  encodable (data_row float_str row2 headers2) = true ->
  disk st path = Absent true ->
  exists st',
    (write_csv_row float_str path row1 headers1 ;;;
     write_csv_row float_str path row2 headers2) st = (st', Ok tt)
    /\ disk st' path
       = File true true (Csv.record headers1
                         ++ data_row float_str row1 headers1
                         ++ data_row float_str row2 headers2)
    /\ touches_only path st st'.
Proof.
  intros Hk1 Hk2 Hh He1 He2 Hd. unfold bind.
  destruct (write_csv_row_new float_str path row1 headers1 st Hd Hh)
    as (st1 & -> & Hfile1 & Hrest1).
  destruct (writerow_ok float_str path headers1 row1 st1 _ _ _ Hfile1 Hk1 He1)
    as (st2 & -> & Hfile2 & Hrest2).
  rewrite (write_csv_row_existing _ _ _ _ _ _ Hfile2).
  destruct (writerow_ok float_str path headers2 row2 st2 _ _ _ Hfile2 Hk2 He2)
    as (st3 & -> & Hfile3 & Hrest3).
  exists st3. split; [reflexivity|]. split.
  - rewrite Hfile3, <- app_assoc. reflexivity.
  - eapply touches_only_trans; [|exact Hrest3].
    eapply touches_only_trans; eassumption.
Qed.

Lemma write_csv_row_twice_witness :
  exists st',
    (write_csv_row float_str_stub report_path plain_row
                   [txt "date"; txt "git_sha"] ;;;
     write_csv_row float_str_stub report_path measured_row
                   measured_headers) fresh = (st', Ok tt)
    /\ disk st' report_path
       = File true true
           (txt "date,git_sha" ++ [13; 10]%N
            ++ txt "2024-05-01T12:00:00,unknown" ++ [13; 10]%N
            ++ txt "2024-05-02T09:30:00,unknown,<float>" ++ [13; 10]%N).
Proof.
  destruct (write_csv_row_twice float_str_stub report_path plain_row
              measured_row [txt "date"; txt "git_sha"] measured_headers fresh
              (fun k H => H) (fun k H => H) eq_refl eq_refl eq_refl eq_refl)
    as (st' & E & Hfile & _).
  exists st'. split; [exact E | exact Hfile].
Defined.

(** ** The orchestration: outcomes of a run *)

(** X8.  [main] prints its line exactly when it returns normally: after
    a successful write one line is added to the output, and when
    anything raises (the tests, the extraction or the writer) nothing is
    printed. *)
Theorem main_prints_iff_ok
        (ua : char -> bool) (float_str : spec_float -> string)
        (dict_str : dict value -> str) (e : env) (st : state) :
  (snd (main ua float_str dict_str e st) = Ok tt ->
   exists line,
     stdout (fst (main ua float_str dict_str e st)) = stdout st ++ [line])
  /\ (snd (main ua float_str dict_str e st) <> Ok tt ->
      stdout (fst (main ua float_str dict_str e st)) = stdout st).
Proof.
  destruct (run_tests e) as [out|ex] eqn:H1.
  2:{ assert (E : main ua float_str dict_str e st = (st, Raise ex))
        by (unfold main, lift, bind; rewrite H1; reflexivity).
      rewrite E. split; [discriminate | reflexivity]. }
  destruct (parse_results ua out) as [results|ex] eqn:H2.
  2:{ assert (E : main ua float_str dict_str e st = (st, Raise ex))
        by (unfold main, lift; unfold bind at 1; rewrite H1;
            unfold bind at 1; rewrite H2; reflexivity).
      rewrite E. split; [discriminate | reflexivity]. }
  destruct (get_git_sha_returns e) as [sha H3].
  rewrite (main_reaches_writer ua float_str dict_str e st out results sha
             H1 H2 H3).
  unfold bind.
  pose proof (write_csv_row_frame float_str (txt "perf_results.csv")
                (report_row (clock e) sha results) (report_headers results) st)
    as [Hout _].
  destruct (write_csv_row float_str (txt "perf_results.csv")
              (report_row (clock e) sha results) (report_headers results) st)
    as [st1 [[]|ex]]; cbn [fst snd print stdout] in *.
  - split; [intros _; eexists; rewrite Hout; reflexivity|]. congruence.
  - split; [discriminate | intros _; exact Hout].
Qed.

Lemma main_prints_iff_ok_witness :
  (exists line,
     stdout (fst (main ascii_only float_str_stub dict_str_stub
                       sample_env fresh)) = [line])
  /\ stdout (fst (main ascii_only float_str_stub dict_str_stub
                       sample_env is_directory)) = [].
Proof.
  split.
  - apply (proj1 (main_prints_iff_ok ascii_only float_str_stub dict_str_stub
                    sample_env fresh)).
    vm_compute. reflexivity.
  - apply (proj2 (main_prints_iff_ok ascii_only float_str_stub dict_str_stub
                    sample_env is_directory)).
    vm_compute. discriminate.
Defined.

(** X9.  The return code of the test command is never looked at: two
    runs that differ in nothing but that code do the same, so the
    measurements of a failing test run are recorded too. *)
Theorem main_ignores_exit_status
        (ua : char -> bool) (float_str : spec_float -> string)
        (dict_str : dict value -> str) (e1 e2 : env) (st : state)
        (code1 code2 : Z) (out : str) :
  xcodebuild e1 = Exited code1 out ->
  xcodebuild e2 = Exited code2 out ->
  git_rev_parse e1 = git_rev_parse e2 ->
  clock e1 = clock e2 ->
  main ua float_str dict_str e1 st = main ua float_str dict_str e2 st.
Proof.
  intros H1 H2 Hg Hc.
  unfold main, run_tests, get_git_sha. rewrite H1, H2, Hg, Hc. reflexivity.
Qed.

Lemma main_ignores_exit_status_witness :
  main ascii_only float_str_stub dict_str_stub sample_env fresh
  = main ascii_only float_str_stub dict_str_stub failing_tests_env fresh.
Proof.
  exact (main_ignores_exit_status ascii_only float_str_stub dict_str_stub
           sample_env failing_tests_env fresh 0%Z 65%Z two_runs_text
           eq_refl eq_refl eq_refl eq_refl).
Defined.

(** X10.  A revision lookup that fails does not stop the run: with the
    tests run and the results extracted, [main] goes on to the writer
    with ["unknown"] under [git_sha]. *)
Theorem main_survives_lookup_failure
        (ua : char -> bool) (float_str : spec_float -> string)
        (dict_str : dict value -> str) (e : env) (st : state)
        (out : str) (results : dict spec_float) :
  run_tests e = Ok out -> parse_results ua out = Ok results ->
  (forall o, git_rev_parse e <> Exited 0 o) ->
  main ua float_str dict_str e st
  = (write_csv_row float_str (txt "perf_results.csv")
                   (report_row (clock e) (txt "unknown") results)
                   (report_headers results) ;;;
     print (txt "Performance results recorded: "
            ++ dict_str (report_row (clock e) (txt "unknown") results))) st
  /\ dict_get (txt "git_sha")
              (report_row (clock e) (txt "unknown") results)
     = Some (VStr (txt "unknown")).
Proof.
  intros H1 H2 Hgit. split.
  - apply (main_reaches_writer ua float_str dict_str e st out); try assumption.
    unfold get_git_sha.
    destruct (git_rev_parse e) as [[|code|code] o|ex]; try reflexivity.
    elim (Hgit o). reflexivity.
  - apply (report_row_fixed ua out results (clock e) (txt "unknown") H2).
Qed.

Lemma main_survives_lookup_failure_witness :
  disk (fst (main ascii_only float_str_stub dict_str_stub no_repo_env fresh))
       report_path
  = disk (fst (write_csv_row float_str_stub report_path
                 [(txt "date", VStr (clock no_repo_env));
                  (txt "git_sha", VStr (txt "unknown"))]
                 [txt "date"; txt "git_sha"] fresh))
         report_path.
Proof.
  rewrite (proj1 (main_survives_lookup_failure ascii_only float_str_stub
                    dict_str_stub no_repo_env fresh (txt "** TEST FAILED **")
                    [] eq_refl eq_refl
                    (fun o H => ltac:(discriminate H)))).
  reflexivity.
Defined.

(** ** The revision lookup: what it returns *)

Lemma lstrip_all_space (ws : str) :
  forallb is_space ws = true -> lstrip ws = [].
Proof.
  induction ws as [|c ws IH]; simpl; [reflexivity|].
  intros H. apply andb_true_iff in H as [-> H]. apply IH, H.
Qed.

Lemma lstrip_clean (s : str) : starts_clean s -> lstrip s = s.
Proof. destruct s as [|c s]; simpl; [reflexivity|]. intros ->. reflexivity. Qed.

Lemma lstrip_pad (ws s : str) :
  forallb is_space ws = true -> starts_clean s -> lstrip (ws ++ s) = s.
Proof.
  induction ws as [|c ws IH]; simpl; intros H Hs; [apply lstrip_clean, Hs|].
  apply andb_true_iff in H as [-> H]. apply IH; assumption.
Qed.

Lemma rstrip_pad (s ws : str) :
  forallb is_space ws = true -> starts_clean (rev s) -> rstrip (s ++ ws) = s.
Proof.
  intros H Hs. unfold rstrip. rewrite rev_app_distr, lstrip_pad.
  - apply rev_involutive.
  - rewrite forallb_rev. exact H.
  - exact Hs.
Qed.

(** Padding a trimmed string with white space and stripping it gives the
    string back. *)
Lemma strip_pad (l s r : str) :
  forallb is_space l = true -> forallb is_space r = true -> trimmed s ->
  strip (l ++ s ++ r) = s.
Proof.
  intros Hl Hr [Hhead Hlast]. unfold strip.
  destruct s as [|c s].
  - simpl. rewrite lstrip_all_space; [reflexivity|].
    rewrite forallb_app, Hl, Hr. reflexivity.
  - rewrite lstrip_pad; [apply rstrip_pad; assumption | exact Hl | exact Hhead].
Qed.

(** X11.  When the revision command exits with 0 and prints a revision
    with white space around it (the line feed [git] ends its output
    with), [get_git_sha] returns the revision itself: nothing but the
    surrounding white space is removed. *)
Theorem get_git_sha_exact (e : env) (out : bytes) (l s r : str) :
  git_rev_parse e = Exited 0 out ->
  decode out = Ok (l ++ s ++ r) ->
  forallb is_space l = true -> forallb is_space r = true -> trimmed s ->
  get_git_sha e = Ok s.
Proof.
  intros Hgit Hdec Hl Hr Hs. unfold get_git_sha.
  rewrite Hgit. cbn [check_output rbind]. rewrite Hdec.
  cbn [rbind try_except]. rewrite strip_pad by assumption. reflexivity.
Qed.

Lemma get_git_sha_exact_witness :
  get_git_sha sample_env
  = Ok (txt "9fceb02d0ae598e95dc970b74767f19372d61af8").
Proof.
  refine (get_git_sha_exact sample_env _ []
            (txt "9fceb02d0ae598e95dc970b74767f19372d61af8") [10%N]
            eq_refl eq_refl eq_refl eq_refl _).
  split; reflexivity.
Defined.

(** ** The header line of main *)

Lemma word_not_special (ua : char -> bool) (c : char) :
  is_word ua c = true -> Csv.special c = false.
Proof.
  intros H. unfold Csv.special.
  destruct (N.eqb c 44) eqn:E1; [apply N.eqb_eq in E1; subst; discriminate H|].
  destruct (N.eqb c 34) eqn:E2; [apply N.eqb_eq in E2; subst; discriminate H|].
  destruct (N.eqb c 13) eqn:E3; [apply N.eqb_eq in E3; subst; discriminate H|].
  destruct (N.eqb c 10) eqn:E4; [apply N.eqb_eq in E4; subst; discriminate H|].
  reflexivity.
Qed.

Lemma words_not_special (ua : char -> bool) (w : str) :
  forallb (is_word ua) w = true -> existsb Csv.special w = false.
Proof.
  induction w as [|c w IH]; simpl; [reflexivity|].
  intros H. apply andb_true_iff in H as [Hc Hw].
  rewrite (word_not_special ua c Hc), IH by exact Hw. reflexivity.
Qed.

Lemma quote_plain (field : str) :
  existsb Csv.special field = false -> Csv.quote field = field.
Proof. intros H. unfold Csv.quote. rewrite H. reflexivity. Qed.

(** X12.  The header line [main] hands to a new report is never quoted:
    the keys of the extractor hold nothing but word characters and a
    period, so the line is the header names joined with commas and
    ended by the line terminator. *)
Theorem main_header_line_plain
        (ua : char -> bool) (text : str) (results : dict spec_float) :
  parse_results ua text = Ok results ->
  Csv.record (report_headers results)
  = Csv.join (report_headers results) ++ [13; 10]%N.
Proof.
  intros H.
  assert (Hq : map Csv.quote (dict_keys results) = dict_keys results).
  { rewrite <- (map_id (dict_keys results)) at 2.
    apply map_ext_in. intros k Hk. apply quote_plain.
    destruct (parse_results_key_form ua text results k H Hk)
      as (c & t & -> & [_ Hc] & [_ Ht]).
    rewrite existsb_app, (words_not_special ua c Hc).
    cbn [txt map list_ascii_of_string app existsb orb].
    rewrite (words_not_special ua t Ht). reflexivity. }
  unfold report_headers, Csv.record.
  cbn [app map]. rewrite Hq. reflexivity.
Qed.

Lemma main_header_line_plain_witness :
  exists d,
    parse_results ascii_only two_runs_text = Ok d
    /\ Csv.record (report_headers d)
       = txt "date,git_sha,Measurements.testInsert,Measurements.testDelete"
         ++ [13; 10]%N.
Proof.
  destruct (parse_results ascii_only two_runs_text) as [d|ex] eqn:E;
    [|vm_compute in E; discriminate].
  exists d. split; [reflexivity|].
  rewrite (main_header_line_plain ascii_only two_runs_text d E).
  vm_compute in E. injection E as <-. reflexivity.
Defined.

(** ** The extractor on the output of the test tool *)

Lemma strip_prefix_inv (l s r : str) :
  Re.strip_prefix l s = Some r -> s = l ++ r.
Proof.
  revert s. induction l as [|c l IH]; intros [|d s]; simpl;
    try discriminate; try (intros [= ->]; reflexivity).
  destruct (N.eqb c d) eqn:E; [|discriminate].
  apply N.eqb_eq in E. subst d. intros H. rewrite (IH s H). reflexivity.
Qed.

(** A match of the pattern starts with its first literal, which has its
    apostrophe among the first eleven characters. *)
Lemma match_needs_apostrophe (ua : char -> bool) (s : str) gs r :
  Re.match_here (regex ua) s = Some (gs, r) -> In 39%N (firstn 11 s).
Proof.
  unfold regex. cbn [Re.match_here].
  destruct (Re.strip_prefix (txt "Test Case '-[") s) as [r'|] eqn:E;
    [|discriminate].
  intros _. apply strip_prefix_inv in E. subst s.
  cbn. do 10 right. left. reflexivity.
Qed.

Lemma firstn_In (n : nat) (s : str) (x : char) :
  In x (firstn n s) -> In x s.
Proof.
  revert n. induction s as [|c s IH]; intros [|n]; simpl; try tauto.
  intros [->|H]; eauto.
Qed.

Lemma firstn_In_S (n : nat) (s : str) (x : char) :
  In x (firstn n s) -> In x (firstn (S n) s).
Proof.
  revert n. induction s as [|c s IH]; intros [|n]; simpl; try tauto.
  intros [->|H]; eauto.
Qed.

Lemma firstn_app_In (n : nat) (a b : str) (x : char) :
  In x (firstn n (a ++ b)) -> In x a \/ In x (firstn n b).
Proof.
  revert n. induction a as [|y a IH]; intros n; simpl; [auto|].
  destruct n as [|n]; simpl; [tauto|].
  intros [->|H]; [auto|].
  destruct (IH n H) as [Ha|Hb]; [auto|].
  right. apply firstn_In_S, Hb.
Qed.

(** Text without an apostrophe holds no match. *)
Lemma scan_no_apostrophe (ua : char -> bool) (s : str) :
  ~ In 39%N s -> Re.scan (regex ua) O s = [].
Proof.
  intros H. apply ReFacts.scan_nil. intros n.
  destruct (Re.match_here (regex ua) (skipn n s)) as [[gs r]|] eqn:E;
    [|reflexivity].
  apply match_needs_apostrophe, firstn_In in E.
  elim H. rewrite <- (firstn_skipn n s). apply in_or_app. auto.
Qed.

(** Text without an apostrophe in front of a text that has none among
    its first ten characters is passed over. *)
Lemma scan_skips_text (ua : char -> bool) (sep s : str) :
  ~ In 39%N sep -> ~ In 39%N (firstn 10 s) ->
  Re.scan (regex ua) O (sep ++ s) = Re.scan (regex ua) O s.
Proof.
  intros Hsep Hs. induction sep as [|c sep IH]; [reflexivity|].
  change ((c :: sep) ++ s) with (c :: sep ++ s). cbn [Re.scan].
  destruct (Re.match_here (regex ua) (c :: sep ++ s)) as [[gs r]|] eqn:E.
  - apply match_needs_apostrophe in E.
    change (firstn 11 (c :: sep ++ s)) with (c :: firstn 10 (sep ++ s)) in E.
    destruct E as [E|E].
    + elim Hsep. left. exact E.
    + apply firstn_app_In in E as [E|E]; [|contradiction].
      elim Hsep. right. exact E.
  - apply IH. intros Hin. apply Hsep. right. exact Hin.
Qed.

Lemma finditer_report_text (ua : char -> bool) (items : list report_item)
      (tail : str) :
  Forall (item_ok ua) items -> ~ In 39%N tail ->
  Re.finditer (regex ua) (report_text items tail) = map item_groups items.
Proof.
  intros Hitems Htail. unfold Re.finditer.
  induction Hitems as [|[sep [[[m c] t] a]] items Hit _ IH];
    cbn [report_text map item_groups].
  - apply scan_no_apostrophe, Htail.
  - destruct Hit as (Hsep & Hm & Hc & Ht & Ha).
    rewrite scan_skips_text; [|exact Hsep|].
    + rewrite ReFacts.scan_match with (gs := [c; t; a]).
      * rewrite IH. reflexivity.
      * unfold report_line. discriminate.
      * apply match_report_line; assumption.
    + unfold report_line. cbn. intros H.
      repeat (destruct H as [H|H]; [discriminate H|]). exact H.
Qed.

(** X13.  On the output of a test run (measurement lines, each with
    words for its module, class and method and digits and dots for its
    average, in between text without an apostrophe) the pattern finds
    every line, in the order of the text, and nothing else: the
    extractor gets the class, the method and the average of each line,
    and the module of a line is no part of what it keeps. *)
Theorem parse_results_report_text
        (ua : char -> bool) (items : list report_item) (tail : str) :
  Forall (item_ok ua) items -> ~ In 39%N tail ->
  Re.finditer (regex ua) (report_text items tail) = map item_groups items
  /\ parse_results ua (report_text items tail)
     = parse_loop (map item_groups items) [].
Proof.
  intros Hitems Htail.
  pose proof (finditer_report_text ua items tail Hitems Htail) as E.
  split; [exact E|]. unfold parse_results. rewrite E. reflexivity.
Qed.

Lemma parse_results_report_text_witness :
  parse_results ascii_only
    (report_text sample_items (txt " Executed 3 tests" ++ [10%N]))
  = Ok [(txt "Measurements.testInsert",
         S754_finite false 7036874417766400 (-49));
        (txt "Measurements.testDelete",
         S754_finite false 7205759403792794 (-56))].
Proof.
  assert (H1 : Forall (item_ok ascii_only) sample_items).
  { repeat constructor; try discriminate;
      cbn; intros H; repeat (destruct H as [H|H]; [discriminate H|]); exact H. }
  assert (H2 : ~ In 39%N (txt " Executed 3 tests" ++ [10%N])).
  { cbn. intros H. repeat (destruct H as [H|H]; [discriminate H|]). exact H. }
  rewrite (proj2 (parse_results_report_text ascii_only sample_items
                    (txt " Executed 3 tests" ++ [10%N]) H1 H2)).
  reflexivity.
Defined.

(** ** The values of the extractor *)

Lemma shr_1_nonneg (mrs : shr_record) :
  (0 <= shr_m mrs)%Z -> (0 <= shr_m (shr_1 mrs))%Z.
Proof.
  destruct mrs as [m r s]. destruct m as [|[p|p|]|p]; simpl; lia.
Qed.

Lemma iter_shr_1_nonneg (p : positive) (mrs : shr_record) :
  (0 <= shr_m mrs)%Z -> (0 <= shr_m (iter_pos shr_1 p mrs))%Z.
Proof.
  revert mrs. induction p as [p IH|p IH|]; intros mrs H; simpl.
  - apply IH, IH, shr_1_nonneg, H.
  - apply IH, IH, H.
  - apply shr_1_nonneg, H.
Qed.

Lemma shr_fexp_nonneg (prec emax m e : Z) (l : location) :
  (0 <= m)%Z -> (0 <= shr_m (fst (shr_fexp prec emax m e l)))%Z.
Proof.
  intros H. unfold shr_fexp, shr.
  assert (Hm : (0 <= shr_m (shr_record_of_loc m l))%Z)
    by (destruct l as [|[]]; exact H).
  destruct (fexp prec emax (Zdigits2 m + e) - e)%Z; simpl;
    [exact Hm | apply iter_shr_1_nonneg, Hm | exact Hm].
Qed.

Lemma round_nearest_even_nonneg (m : Z) (l : location) :
  (0 <= m)%Z -> (0 <= round_nearest_even m l)%Z.
Proof.
  intros H. destruct l as [|[]]; simpl; try exact H; [|lia].
  destruct (Z.even m); lia.
Qed.

(** Rounding a mantissa that is not negative gives no NaN. *)
Lemma binary_round_aux_nonneg (prec emax mx ex : Z) (lx : location) :
  (0 <= mx)%Z ->
  nonneg_float (binary_round_aux prec emax false mx ex lx) = true.
Proof.
  intros H. unfold binary_round_aux.
  pose proof (shr_fexp_nonneg prec emax mx ex lx H) as H1.
  destruct (shr_fexp prec emax mx ex lx) as [mrs' e']. cbn [fst] in H1.
  pose proof (shr_fexp_nonneg prec emax _ e' loc_Exact
                (round_nearest_even_nonneg _ (loc_of_shr_record mrs') H1))
    as H2.
  destruct (shr_fexp prec emax
              (round_nearest_even (shr_m mrs') (loc_of_shr_record mrs'))
              e' loc_Exact) as [mrs'' e'']. cbn [fst] in H2.
  destruct (shr_m mrs'') as [|m|m]; [reflexivity | | lia].
  destruct (Z.leb e'' (emax - prec)); reflexivity.
Qed.

Lemma binary64_of_decimal_nonneg (m : N) (k : nat) :
  nonneg_float (binary64_of_decimal m k) = true.
Proof.
  destruct m as [|p]; [reflexivity|].
  unfold binary64_of_decimal, SFdiv, SFdiv_core_binary.
  set (q := Z.to_pos (10 ^ Z.of_nat k)).
  set (e' := Z.min _ _). set (m' := match (0 - 0 - e')%Z with
                                    | Z0 => Zpos p
                                    | Zpos _ => Z.shiftl (Zpos p) (0 - 0 - e')
                                    | Zneg _ => 0%Z
                                    end).
  assert (Hm' : (0 <= m')%Z).
  { unfold m'. destruct (0 - 0 - e')%Z; try lia.
    apply Z.shiftl_nonneg. lia. }
  pose proof (Z.div_pos m' (Zpos q) Hm' eq_refl) as Hq.
  unfold Z.div in Hq.
  destruct (Z.div_eucl m' (Zpos q)) as [quo r].
  apply binary_round_aux_nonneg, Hq.
Qed.

Lemma py_float_nonneg (s : str) (v : spec_float) :
  py_float s = Ok v -> nonneg_float v = true.
Proof.
  unfold py_float.
  destruct (skipn (Re.run is_digit s) s) as [|c r].
  - destruct (firstn (Re.run is_digit s) s); [discriminate|].
    intros [= <-]. apply binary64_of_decimal_nonneg.
  - destruct (is_dot c); [|discriminate].
    destruct (skipn (Re.run is_digit r) r); [|discriminate].
    destruct (firstn (Re.run is_digit s) s ++ firstn (Re.run is_digit r) r);
      [discriminate|].
    intros [= <-]. apply binary64_of_decimal_nonneg.
Qed.

Lemma parse_loop_values (ms : list (list str)) (acc d : dict spec_float) :
  Forall (fun kv => nonneg_float (snd kv) = true) acc ->
  parse_loop ms acc = Ok d ->
  Forall (fun kv => nonneg_float (snd kv) = true) d.
Proof.
  revert acc. induction ms as [|m ms IH]; intros acc Hacc;
    cbn [parse_loop].
  - intros [= <-]. exact Hacc.
  - destruct m as [|c [|t [|a [|x m]]]]; try discriminate.
    destruct (py_float a) as [v|e] eqn:E; [|discriminate].
    apply IH.
    apply (dict_set_Forall (fun x => nonneg_float x = true));
      [eapply py_float_nonneg, E | exact Hacc].
Qed.

(** X14.  The averages [parse_results] returns are never negative and
    never NaN: the pattern captures no sign and no letter, so every
    value is zero, a positive number or plus infinity. *)
Theorem parse_results_values_nonneg
        (ua : char -> bool) (text : str) (d : dict spec_float)
        (k : str) (v : spec_float) :
  parse_results ua text = Ok d -> dict_get k d = Some v ->
  nonneg_float v = true.
Proof.
  unfold parse_results. intros H Hk.
  apply (dict_get_Forall (fun x => nonneg_float x = true) k v d);
    [|exact Hk].
  apply (parse_loop_values (Re.finditer (regex ua) text) [] d);
    [constructor | exact H].
Qed.

Lemma parse_results_values_nonneg_witness :
  exists d v,
    parse_results ascii_only two_runs_text = Ok d
    /\ dict_get (txt "Measurements.testDelete") d = Some v
    /\ nonneg_float v = true.
Proof.
  destruct (parse_results ascii_only two_runs_text) as [d|ex] eqn:E;
    [|vm_compute in E; discriminate].
  destruct (dict_get (txt "Measurements.testDelete") d) as [v|] eqn:G;
    [|vm_compute in E; injection E as <-; discriminate G].
  exists d, v. split; [reflexivity|]. split; [exact G|].
  exact (parse_results_values_nonneg ascii_only two_runs_text d
           (txt "Measurements.testDelete") v E G).
Defined.

(** ** Whole runs *)



(** X15.  Two runs one after the other, on a disk without a report: the
    file gets one header line, that of the first run, and the rows of
    both runs in their order, the second row under its own headers even
    when the second run measured other tests.  Both lines are
    printed. *)
Theorem main_twice
        (ua : char -> bool) (float_str : spec_float -> string)
        (dict_str : dict value -> str) (e1 e2 : env) (st : state)
        (out1 out2 : str) (results1 results2 : dict spec_float)
        (sha1 sha2 : str) :
  run_tests e1 = Ok out1 -> parse_results ua out1 = Ok results1 ->
  get_git_sha e1 = Ok sha1 ->
  run_tests e2 = Ok out2 -> parse_results ua out2 = Ok results2 ->
  get_git_sha e2 = Ok sha2 ->
  disk st report_path = Absent true ->
  exists st',
    (main ua float_str dict_str e1 ;;; main ua float_str dict_str e2) st
    = (st', Ok tt)
    /\ disk st' report_path
       = File true true
           (Csv.record (report_headers results1)
            ++ data_row float_str (report_row (clock e1) sha1 results1)
                        (report_headers results1)
            ++ data_row float_str (report_row (clock e2) sha2 results2)
                        (report_headers results2))
    /\ stdout st'
       = stdout st
         ++ [txt "Performance results recorded: "
             ++ dict_str (report_row (clock e1) sha1 results1);
             txt "Performance results recorded: "
             ++ dict_str (report_row (clock e2) sha2 results2)].
Proof.
  intros A1 A2 A3 B1 B2 B3 Hd. unfold bind.
  destruct (proj1 (main_writes_report ua float_str dict_str e1 st out1
                     results1 sha1 A1 A2 A3) Hd)
    as (st1 & -> & Hfile1 & Hout1).
  destruct (proj2 (main_writes_report ua float_str dict_str e2 st1 out2
                     results2 sha2 B1 B2 B3) _ Hfile1)
    as (st2 & -> & Hfile2 & Hout2).
  exists st2. split; [reflexivity|]. split.
  - rewrite Hfile2, <- app_assoc. reflexivity.
  - rewrite Hout2, Hout1, <- app_assoc. reflexivity.
Qed.

Lemma main_twice_witness :
  exists st',
    (main ascii_only float_str_stub dict_str_stub sample_env ;;;
     main ascii_only float_str_stub dict_str_stub no_repo_env) fresh
    = (st', Ok tt)
    /\ disk st' report_path
       = File true true
           (txt "date,git_sha,Measurements.testInsert,Measurements.testDelete"
            ++ [13; 10]%N
            ++ txt "2024-05-01T12:00:00.000000,9fceb02d0ae598e95dc970b74767f19372d61af8,<float>,<float>"
            ++ [13; 10]%N
            ++ txt "2024-05-01T12:00:00.000000,unknown"
            ++ [13; 10]%N).
Proof.
  destruct (parse_results ascii_only two_runs_text) as [d|ex] eqn:E;
    [|vm_compute in E; discriminate].
  destruct (main_twice ascii_only float_str_stub dict_str_stub
              sample_env no_repo_env fresh
              two_runs_text (txt "** TEST FAILED **") d []
              (txt "9fceb02d0ae598e95dc970b74767f19372d61af8") (txt "unknown")
              eq_refl E eq_refl eq_refl eq_refl eq_refl eq_refl)
    as (st' & Hmain & Hfile & _).
  exists st'. split; [exact Hmain|].
  rewrite Hfile. vm_compute in E. injection E as <-. reflexivity.
Defined.
